(** * go-sarah-discord: the Discord adapter of the go-sarah bot framework

    A shallow embedding of package [discord] (src/config.go, which holds
    the configuration and the adapter, and src/errors.go) and the
    properties of its contract.

    Conventions of the embedding.
    - A Go [string] is a [string] of bytes.
    - A pointer the code tests against [nil], or that a caller can leave
      unset, is an [option]; dereferencing [None] is a run-time panic and
      is written out as [Panicked].
    - A value of interface type carries its dynamic type as the constructor
      of an inductive type ([any], [sarah_Input], [session]).
    - Go's [(value, error)] results are [result]s.
    - Calls that leave the package (the session's methods, the callbacks
      handed to [Run], the logger, the context) are recorded, in order, in
      the list of [call]s of an execution; what they answer is given by an
      environment [Env]. *)

From Stdlib Require Import String Ascii List ZArith Bool.
Import ListNotations.
Open Scope string_scope.

(* ================================================================= *)
(** ** Values shared with the Go runtime and standard library *)

(** [time.Time]: the adapter only copies it. *)
Record time_Time : Type := mkTime { unixSec : Z; nsec : Z }.

(** The line feed used by [strings.Join(lines, "\n")]. *)
Definition LF : string := String (ascii_of_nat 10) EmptyString.

(** [strings.Join(elems, sep)]. *)
Definition strings_Join (elems : list string) (sep : string) : string :=
String.concat sep elems.

(** How a Go function call ends. [Blocked] is a call that never comes
    back (a receive on a channel nobody closes). *)
Inductive outcome (A : Type) : Type :=
| Returned (a : A)
| Panicked (reason : string)
| Blocked.
Arguments Returned {A} a.
Arguments Panicked {A} reason.
Arguments Blocked {A}.

Definition nil_dereference : string :=
"invalid memory address or nil pointer dereference".

(* ================================================================= *)
(** ** Errors *)

(** The [error] values that occur: the two sentinels of src/errors.go, the
    errors built by [fmt.Errorf] (with and without [%w]), sarah's
    non-continuable error, and errors made outside the package (by
    discordgo, or by a callback). Sentinels are compared by identity in
    Go, hence constructors of their own. *)
Inductive error : Type :=
| ErrEmptyToken
| ErrNoAuthor
| fmt_Errorf (msg : string)
| fmt_Errorf_w (msg : string) (wrapped : error)
| sarah_BotNonContinuableError (err : string)
| external_error (msg : string).

(** [err.Error()]. For [fmt_Errorf_w] the message is the whole formatted
    text, the wrapped error's included. *)
Definition Error (e : error) : string :=
match e with
| ErrEmptyToken => "token must be set or a session must be provided via WithSession"
| ErrNoAuthor => "message has no author"
| fmt_Errorf msg => msg
| fmt_Errorf_w msg _ => msg
| sarah_BotNonContinuableError err => err
| external_error msg => msg
end.

(** [sarah.NewBotNonContinuableError]. *)
Definition sarah_NewBotNonContinuableError (errorContent : string) : error :=
sarah_BotNonContinuableError errorContent.

(** Go's [(value, error)] pair of results: exactly one is set. *)
Inductive result (A : Type) : Type :=
| Ok (a : A)
| Err (e : error).
Arguments Ok {A} a.
Arguments Err {A} e.

(* ================================================================= *)
(** ** discordgo: the fields of the client library the adapter reads *)

Definition discordgo_Intent : Type := Z.

Definition discordgo_IntentsGuildMessages : discordgo_Intent := Z.shiftl 1 9.
Definition discordgo_IntentsDirectMessages : discordgo_Intent := Z.shiftl 1 12.
Definition discordgo_IntentsMessageContent : discordgo_Intent := Z.shiftl 1 15.

Record discordgo_User : Type := mkUser {
  User_ID : string;
  User_Username : string
}.

Record discordgo_Message : Type := mkMessage {
  Message_ChannelID : string;
  Message_Content : string;
  Message_Timestamp : time_Time;
  Message_Author : option discordgo_User      (* *User, nil on system messages *)
}.

(** [MessageCreate] embeds a [*Message]; its fields are promoted. *)
Record discordgo_MessageCreate : Type := mkMessageCreate {
  MessageCreate_Message : option discordgo_Message
}.

(** [State] embeds [Ready], whose [User *User] is the bot's own account. *)
Record discordgo_State : Type := mkState {
  State_User : option discordgo_User
}.

Record discordgo_Session : Type := mkSession {
  Session_Token : string;
  Session_Identify_Intents : discordgo_Intent;
  Session_State : option discordgo_State
}.

Record discordgo_MessageSend : Type := mkMessageSend {
  MessageSend_Content : string;
  MessageSend_TTS : bool
}.

(* ================================================================= *)
(** ** sarah: the framework types the adapter produces and consumes *)

Record sarah_CommandHelp : Type := mkCommandHelp {
  Identifier : string;
  Instruction : string
}.

Definition sarah_CommandHelps : Type := list sarah_CommandHelp.

(** [type ChannelID string]. *)
Variant ChannelID : Type := ChannelID_of (s : string).

(** The conversion [string(destination)]. *)
Definition string_of_ChannelID (c : ChannelID) : string :=
match c with ChannelID_of s => s end.

(** A value of type [interface{}] ([sarah.OutputDestination], the content
    of a [sarah.Output], ...), by dynamic type. Pointers may be nil. *)
Inductive any : Type :=
| any_nil
| any_string (s : string)
| any_int (n : Z)
| any_ChannelID (c : ChannelID)
| any_MessageSend_ptr (p : option discordgo_MessageSend)
| any_CommandHelps_ptr (p : option sarah_CommandHelps)
| any_other (type_name : string).

(** [sarah.Output], as built by [sarah.NewOutputMessage]. *)
Record sarah_Output : Type := NewOutputMessage {
  Destination : any;
  Content : any
}.

(** A [sarah.ContextualFunc] is a function value the adapter stores and
    never calls: a reference. *)
Record sarah_ContextualFunc : Type := mkContextualFunc { func_ref : nat }.

Record sarah_SerializableArgument : Type := mkSerializableArgument {
  FuncIdentifier : string;
  Argument : any
}.

Record sarah_UserContext : Type := mkUserContext {
  Next : option sarah_ContextualFunc;                 (* nil when unset *)
  Serializable : option sarah_SerializableArgument    (* nil when unset *)
}.

Record sarah_CommandResponse : Type := mkCommandResponse {
  CommandResponse_Content : any;
  CommandResponse_UserContext : option sarah_UserContext
}.

(* ================================================================= *)
(** ** src/config.go, lines 6-31: Config and NewConfig *)

Record Config : Type := mkConfig {
  Token : string;
  HelpCommand : string;
  AbortCommand : string;
  Intents : discordgo_Intent
}.

Definition NewConfig : Config :=
{| Token := "";
   HelpCommand := ".help";
   AbortCommand := ".abort";
   Intents := Z.lor (Z.lor discordgo_IntentsGuildMessages discordgo_IntentsDirectMessages)
                    discordgo_IntentsMessageContent |}.

(* ================================================================= *)
(** ** src/config.go, lines 204-248: Input and MessageToInput *)

Definition DISCORD : string := "discord".

Record Input : Type := mkInput {
  Event : discordgo_MessageCreate;
  senderKey : string;
  text : string;
  sentAt : time_Time;
  channelID : ChannelID
}.

Definition SenderKey (i : Input) : string := senderKey i.
Definition Message (i : Input) : string := text i.
Definition SentAt (i : Input) : time_Time := sentAt i.
Definition ReplyTo (i : Input) : any := any_ChannelID (channelID i).

(** A value of interface type [sarah.Input], by dynamic type: this
    adapter's [*Input], sarah's two wrappers (which keep the input they
    wrap as [OriginalInput]), an input of some other adapter, or nil. *)
Inductive sarah_Input : Type :=
| Input_nil
| Input_ptr (i : Input)
| HelpInput_ptr (OriginalInput : sarah_Input)
| AbortInput_ptr (OriginalInput : sarah_Input)
| Input_foreign (type_name : string) (key msg : string).

Definition sarah_NewHelpInput (input : sarah_Input) : sarah_Input :=
HelpInput_ptr input.

Definition sarah_NewAbortInput (input : sarah_Input) : sarah_Input :=
AbortInput_ptr input.

(** What [%T] prints for a [sarah.Input]. *)
Definition type_name_of (input : sarah_Input) : string :=
match input with
| Input_nil => "<nil>"
| Input_ptr _ => "*discord.Input"
| HelpInput_ptr _ => "*sarah.HelpInput"
| AbortInput_ptr _ => "*sarah.AbortInput"
| Input_foreign type_name _ _ => type_name
end.

(** [fmt.Sprintf("%s_%s", a, b)]. *)
Definition Sprintf_s_s (a b : string) : string := a ++ "_" ++ b.

(** [MessageToInput]. The selector [m.Author] goes through the embedded
    [*Message]: with no message it panics. *)
Definition MessageToInput (m : discordgo_MessageCreate) : outcome (result Input) :=
match MessageCreate_Message m with
| None => Panicked nil_dereference
| Some msg =>
    match Message_Author msg with
    | None => Returned (Err ErrNoAuthor)
    | Some author =>
        Returned (Ok {| Event := m;
                        senderKey := Sprintf_s_s (Message_ChannelID msg) (User_ID author);
                        text := Message_Content msg;
                        sentAt := Message_Timestamp msg;
                        channelID := ChannelID_of (Message_ChannelID msg) |})
    end
end.

(* ================================================================= *)
(** ** src/config.go, lines 250-292: NewResponse and its options *)

Record respOptions : Type := mkRespOptions {
  userContext : option sarah_UserContext
}.

(** [RespOption], a function on a pointer to [respOptions]: what the
    call leaves in the stash, given what was in it. *)
Definition RespOption : Type := respOptions -> respOptions.

Definition RespWithNext (fnc : option sarah_ContextualFunc) : RespOption :=
fun _ => {| userContext := Some {| Next := fnc; Serializable := None |} |}.

Definition RespWithNextSerializable (arg : option sarah_SerializableArgument) : RespOption :=
fun _ => {| userContext := Some {| Next := None; Serializable := arg |} |}.

(** [for _, opt := range options { opt(stash) }]. *)
Definition apply_RespOptions (options : list RespOption) (stash : respOptions) : respOptions :=
fold_left (fun st opt => opt st) options stash.

Definition NewResponse (input : sarah_Input) (message : string) (options : list RespOption)
  : result sarah_CommandResponse :=
match input with
| Input_ptr _ =>
    let stash := apply_RespOptions options {| userContext := None |} in
    Ok {| CommandResponse_Content := any_string message;
          CommandResponse_UserContext := userContext stash |}
| _ => Err (fmt_Errorf (type_name_of input ++ " is not a *discord.Input"))
end.

(* ================================================================= *)
(** ** src/config.go, lines 50-115: the Adapter and its construction *)

(** A value of the interface [session]: a [*discordgo.Session] (the
    pointer itself may be nil) or some other implementation, such as the
    test suite's mock. *)
Inductive session : Type :=
| Session_ptr (p : option discordgo_Session)
| session_impl (name : string).

(** The adapter. [session_of] is the field [session]: [None] while the
    interface value is nil. *)
Record Adapter : Type := mkAdapter {
  config : Config;
  session_of : option session
}.

(** [AdapterOption], a function on a pointer to the adapter: what the
    call leaves in the adapter's two fields, given what was in them. (No
    option of the package writes through the [config] pointer.) *)
Definition AdapterOption : Type := Adapter -> Adapter.

Definition WithSession (s : option discordgo_Session) : AdapterOption :=
fun adapter => {| config := config adapter; session_of := Some (Session_ptr s) |}.

(** [for _, opt := range options { opt(adapter) }]. *)
Definition apply_AdapterOptions (options : list AdapterOption) (adapter : Adapter) : Adapter :=
fold_left (fun ad opt => opt ad) options adapter.

Section Construction.

(** [discordgo.New(token)]. *)
Variable discordgo_New : string -> result discordgo_Session.

Definition NewAdapter (cfg : Config) (options : list AdapterOption) : result Adapter :=
let adapter := apply_AdapterOptions options {| config := cfg; session_of := None |} in
match session_of adapter with
| None =>
    if Token cfg =? "" then Err ErrEmptyToken
    else
      match discordgo_New ("Bot " ++ Token cfg) with
      | Err err =>
          Err (fmt_Errorf_w ("failed to create Discord session: " ++ Error err) err)
      | Ok s =>
          let s := {| Session_Token := Session_Token s;
                      Session_Identify_Intents := Intents cfg;
                      Session_State := Session_State s |} in
          Ok {| config := config adapter; session_of := Some (Session_ptr (Some s)) |}
      end
| Some _ => Ok adapter
end.

End Construction.

Definition BotType (a : Adapter) : string := DISCORD.

(* ================================================================= *)
(** ** Calls that leave the package *)

(** The function literal [Run] registers: it closes over the adapter
    (and over the [enqueueInput] of the same run). *)
Variant handler : Type := messageCreateHandler (a : Adapter).

Inductive level : Type := DEBUG | WARN | ERROR.

(** One call out of the package, with what it was given and, where the
    adapter looks at it, the error it answered. A log entry keeps the
    level and the format string; the formatted arguments are left out. *)
Inductive call : Type :=
| call_AddHandler (h : handler)
| call_Open (err : option error)
| call_Close (err : option error)
| call_ChannelMessageSend (channelID content : string) (err : option error)
| call_ChannelMessageSendComplex (channelID : string) (data : option discordgo_MessageSend)
                                 (err : option error)
| call_enqueueInput (input : sarah_Input) (err : option error)
| call_notifyErr (err : error)
| call_ctx_Done
| call_logger (l : level) (format : string).

(** The environment of an adapter: the implementation behind the
    [session] interface, the two callbacks and the context handed to
    [Run]. [W] is whatever state they keep. The first five fields are the
    function fields of the tests' [mockSession]. *)
Record Env (W : Type) : Type := mkEnv {
  addHandlerFunc : handler -> W -> W;
  openFunc : W -> option error * W;
  closeFunc : W -> option error * W;
  channelMessageSendFunc : string -> string -> W -> option error * W;
  channelMessageSendComplexFunc : string -> option discordgo_MessageSend -> W -> option error * W;
  enqueueInputFunc : sarah_Input -> W -> option error * W;
  notifyErrFunc : error -> W -> W;
  ctxDone : W -> option W          (* None: the context is never cancelled *)
}.
Arguments addHandlerFunc {W} _ _ _.
Arguments openFunc {W} _ _.
Arguments closeFunc {W} _ _.
Arguments channelMessageSendFunc {W} _ _ _ _.
Arguments channelMessageSendComplexFunc {W} _ _ _ _.
Arguments enqueueInputFunc {W} _ _ _.
Arguments notifyErrFunc {W} _ _ _.
Arguments ctxDone {W} _ _.

(** An execution: how it ended, the calls it made, and the state of the
    environment afterwards. *)
Record exec (W A : Type) : Type := mkExec {
  ended : outcome A;
  calls : list call;
  world : W
}.
Arguments mkExec {W A} _ _ _.
Arguments ended {W A} _.
Arguments calls {W A} _.
Arguments world {W A} _.

Definition M (W A : Type) : Type := W -> exec W A.

Definition ret {W A} (a : A) : M W A :=
fun w => mkExec (Returned a) [] w.

Definition panic {W A} (reason : string) : M W A :=
fun w => mkExec (Panicked reason) [] w.

Definition bind {W A B} (m : M W A) (k : A -> M W B) : M W B :=
fun w =>
  let r := m w in
  match ended r with
  | Returned a =>
      let r' := k a (world r) in
      mkExec (ended r') (calls r ++ calls r') (world r')
  | Panicked reason => mkExec (Panicked reason) (calls r) (world r)
  | Blocked => mkExec Blocked (calls r) (world r)
  end.

Notation "x <- m ;; k" := (bind m (fun x => k))
  (at level 61, m at next level, right associativity).
Notation "m ;;; k" := (bind m (fun _ => k))
  (at level 61, right associativity).

(** The inputs handed to the enqueue callback, in order. *)
Fixpoint enqueued (cs : list call) : list sarah_Input :=
match cs with
| [] => []
| call_enqueueInput input _ :: cs' => input :: enqueued cs'
| _ :: cs' => enqueued cs'
end.

(** The calls of the five methods of the [session] interface. *)
Definition is_session_call (c : call) : bool :=
match c with
| call_AddHandler _ | call_Open _ | call_Close _
| call_ChannelMessageSend _ _ _ | call_ChannelMessageSendComplex _ _ _ => true
| _ => false
end.

(** The calls made on the session, in order. *)
Definition session_calls (cs : list call) : list call :=
filter is_session_call cs.

(** The errors handed to the notify callback, in order. *)
Fixpoint notified (cs : list call) : list error :=
match cs with
| [] => []
| call_notifyErr err :: cs' => err :: notified cs'
| _ :: cs' => notified cs'
end.

(** Number of [Open] and of [Close] calls on the session. *)
Fixpoint opens (cs : list call) : nat :=
match cs with
| [] => 0
| call_Open _ :: cs' => S (opens cs')
| _ :: cs' => opens cs'
end.

Fixpoint closes (cs : list call) : nat :=
match cs with
| [] => 0
| call_Close _ :: cs' => S (closes cs')
| _ :: cs' => closes cs'
end.

(* ================================================================= *)
(** ** src/config.go, lines 117-202: Run, handleMessage, SendMessage *)

Section Runtime.

Context {W : Type}.
Variable env : Env W.

(** [strings.TrimSpace], of Go's standard library. *)
Variable strings_TrimSpace : string -> string.

(** A computation that makes no call. *)
Definition lift {A} (o : outcome A) : M W A :=
fun w => mkExec o [] w.

Definition logger_Debugf (format : string) : M W unit :=
fun w => mkExec (Returned tt) [call_logger DEBUG format] w.

Definition logger_Warnf (format : string) : M W unit :=
fun w => mkExec (Returned tt) [call_logger WARN format] w.

Definition logger_Errorf (format : string) : M W unit :=
fun w => mkExec (Returned tt) [call_logger ERROR format] w.

(** The callbacks and the context of a run. *)
Definition enqueueInput (input : sarah_Input) : M W (option error) :=
fun w =>
  let r := enqueueInputFunc env input w in
  mkExec (Returned (fst r)) [call_enqueueInput input (fst r)] (snd r).

Definition notifyErr (err : error) : M W unit :=
fun w => mkExec (Returned tt) [call_notifyErr err] (notifyErrFunc env err w).

(** [<-ctx.Done()]. *)
Definition ctx_Done : M W unit :=
fun w =>
  match ctxDone env w with
  | Some w' => mkExec (Returned tt) [call_ctx_Done] w'
  | None => mkExec Blocked [] w
  end.

(** Method calls on the interface field [a.session]: on a nil interface
    value they panic before anything is called. *)
Definition session_AddHandler (s : option session) (h : handler) : M W unit :=
match s with
| None => panic nil_dereference
| Some _ => fun w => mkExec (Returned tt) [call_AddHandler h] (addHandlerFunc env h w)
end.

Definition session_Open (s : option session) : M W (option error) :=
match s with
| None => panic nil_dereference
| Some _ =>
    fun w => let r := openFunc env w in
             mkExec (Returned (fst r)) [call_Open (fst r)] (snd r)
end.

Definition session_Close (s : option session) : M W (option error) :=
match s with
| None => panic nil_dereference
| Some _ =>
    fun w => let r := closeFunc env w in
             mkExec (Returned (fst r)) [call_Close (fst r)] (snd r)
end.

Definition session_ChannelMessageSend (s : option session) (channelID content : string)
  : M W (option error) :=
match s with
| None => panic nil_dereference
| Some _ =>
    fun w => let r := channelMessageSendFunc env channelID content w in
             mkExec (Returned (fst r)) [call_ChannelMessageSend channelID content (fst r)] (snd r)
end.

Definition session_ChannelMessageSendComplex (s : option session) (channelID : string)
  (data : option discordgo_MessageSend) : M W (option error) :=
match s with
| None => panic nil_dereference
| Some _ =>
    fun w => let r := channelMessageSendComplexFunc env channelID data w in
             mkExec (Returned (fst r))
                    [call_ChannelMessageSendComplex channelID data (fst r)] (snd r)
end.

(** The guard of handleMessage,
    [s.State != nil && s.State.User != nil && m.Author.ID == s.State.User.ID],
    evaluated left to right. *)
Definition from_own_account (s : discordgo_Session) (m : discordgo_MessageCreate)
  : outcome bool :=
match Session_State s with
| None => Returned false
| Some st =>
    match State_User st with
    | None => Returned false
    | Some self =>
        match MessageCreate_Message m with
        | None => Panicked nil_dereference
        | Some msg =>
            match Message_Author msg with
            | None => Panicked nil_dereference
            | Some author => Returned (User_ID author =? User_ID self)
            end
        end
    end
end.

(** [handleMessage]. [s] is the live session discordgo hands to the
    handler. *)
Definition handleMessage (a : Adapter) (s : discordgo_Session) (m : discordgo_MessageCreate)
  (enqueueInput : sarah_Input -> M W (option error)) : M W unit :=
r <- lift (MessageToInput m) ;;
match r with
| Err _ => logger_Debugf "Skipping message: %+v"
| Ok input =>
    own <- lift (from_own_account s m) ;;
    if own then ret tt
    else
      let trimmed := strings_TrimSpace (Message input) in
      enqueueErr <-
        (if negb (HelpCommand (config a) =? "") && (trimmed =? HelpCommand (config a))
         then enqueueInput (sarah_NewHelpInput (Input_ptr input))
         else if negb (AbortCommand (config a) =? "") && (trimmed =? AbortCommand (config a))
         then enqueueInput (sarah_NewAbortInput (Input_ptr input))
         else enqueueInput (Input_ptr input)) ;;
      match enqueueErr with
      | Some _ => logger_Errorf "Failed to enqueue input: %+v"
      | None => ret tt
      end
end.

(** What discordgo runs when it calls a registered handler. *)
Definition invoke (h : handler) (s : discordgo_Session) (m : discordgo_MessageCreate)
  : M W unit :=
match h with
| messageCreateHandler a => handleMessage a s m enqueueInput
end.

(** [fmt.Sprintf("**%s**: %s", h.Identifier, h.Instruction)]. *)
Definition help_line (h : sarah_CommandHelp) : string :=
"**" ++ Identifier h ++ "**: " ++ Instruction h.

(** The loop [for _, h := range *content { lines = append(lines, ...) }]. *)
Definition help_lines (content : sarah_CommandHelps) : list string :=
fold_left (fun lines h => (lines ++ [help_line h])%list) content [].

(** [SendMessage]. *)
Definition SendMessage (a : Adapter) (output : sarah_Output) : M W unit :=
match Destination output with
| any_ChannelID destination =>
    let channelID := string_of_ChannelID destination in
    match Content output with
    | any_string content =>
        err <- session_ChannelMessageSend (session_of a) channelID content ;;
        match err with
        | Some _ => logger_Errorf "Failed to send message to %s: %+v"
        | None => ret tt
        end
    | any_MessageSend_ptr content =>
        err <- session_ChannelMessageSendComplex (session_of a) channelID content ;;
        match err with
        | Some _ => logger_Errorf "Failed to send complex message to %s: %+v"
        | None => ret tt
        end
    | any_CommandHelps_ptr None => panic nil_dereference
    | any_CommandHelps_ptr (Some content) =>
        let lines := help_lines content in
        let text := strings_Join lines LF in
        err <- session_ChannelMessageSend (session_of a) channelID text ;;
        match err with
        | Some _ => logger_Errorf "Failed to send help message to %s: %+v"
        | None => ret tt
        end
    | _ => logger_Warnf "Unexpected output %#v"
    end
| _ => logger_Errorf "Destination is not instance of ChannelID. %#v."
end.

(** [Run]. Its arguments [ctx], [enqueueInput] and [notifyErr] are those
    of the environment. *)
Definition Run (a : Adapter) : M W unit :=
session_AddHandler (session_of a) (messageCreateHandler a) ;;;
err <- session_Open (session_of a) ;;
match err with
| Some err =>
    notifyErr (sarah_NewBotNonContinuableError
                 ("failed to open Discord session: " ++ Error err))
| None =>
    ctx_Done ;;;
    closeErr <- session_Close (session_of a) ;;
    match closeErr with
    | Some _ => logger_Errorf "Failed to close Discord session: %+v"
    | None => ret tt
    end
end.

End Runtime.

(* ================================================================= *)
(** ** Fixtures: the data of src/adapter_test.go *)

Module Fixture.

(** The six ASCII white-space bytes: tab, line feed, vertical tab, form
    feed, carriage return and space. *)
Definition asciiSpace (c : ascii) : bool :=
let n := N_of_ascii c in
((9 <=? n) && (n <=? 13) || (n =? 32))%N.

Fixpoint TrimLeft (s : string) : string :=
match s with
| EmptyString => EmptyString
| String c s' => if asciiSpace c then TrimLeft s' else s
end.

Fixpoint TrimRight (s : string) : string :=
match s with
| EmptyString => EmptyString
| String c s' =>
    match TrimRight s' with
    | EmptyString => if asciiSpace c then EmptyString else String c EmptyString
    | t => String c t
    end
end.

(** What [strings.TrimSpace] does to a string of ASCII bytes. (Beyond
    ASCII the library also strips Unicode white space; the fixtures have
    none.) *)
Definition TrimSpace (s : string) : string := TrimRight (TrimLeft s).

(** A [discordgo.New] that succeeds, with a fresh state and no user. *)
Definition New (token : string) : result discordgo_Session :=
Ok {| Session_Token := token;
      Session_Identify_Intents := 0%Z;
      Session_State := Some {| State_User := None |} |}.

(** A [discordgo.New] that fails. *)
Definition New_failing (token : string) : result discordgo_Session :=
Err (external_error "no session").

(** A [mockSession] with callbacks that answer the given errors and keep
    no state; the context is cancelled. *)
Definition mock (openErr closeErr sendErr enqueueErr : option error) : Env unit :=
{| addHandlerFunc := fun _ w => w;
   openFunc := fun w => (openErr, w);
   closeFunc := fun w => (closeErr, w);
   channelMessageSendFunc := fun _ _ w => (sendErr, w);
   channelMessageSendComplexFunc := fun _ _ w => (sendErr, w);
   enqueueInputFunc := fun _ w => (enqueueErr, w);
   notifyErrFunc := fun _ w => w;
   ctxDone := fun w => Some w |}.

Definition quiet : Env unit := mock None None None None.

Definition connection_refused : error := external_error "connection refused".

Definition botUserID : string := "bot-user-123".

Definition sessionWithState : discordgo_Session :=
{| Session_Token := "";
   Session_Identify_Intents := 0%Z;
   Session_State := Some {| State_User := Some (mkUser botUserID "") |} |}.

Definition sessionNoState : discordgo_Session :=
{| Session_Token := ""; Session_Identify_Intents := 0%Z; Session_State := None |}.

Definition now : time_Time := mkTime 1700000000 0.

Definition message (channel content : string) (author : option discordgo_User)
  : discordgo_Message :=
{| Message_ChannelID := channel;
   Message_Content := content;
   Message_Timestamp := now;
   Message_Author := author |}.

Definition event (channel content : string) (author : option discordgo_User)
  : discordgo_MessageCreate :=
{| MessageCreate_Message := Some (message channel content author) |}.

Definition user1 : discordgo_User := mkUser "user-1" "".

Definition adapter (cfg : Config) : Adapter :=
{| config := cfg; session_of := Some (session_impl "mockSession") |}.

(** A configuration whose two triggers are the same string. *)
Definition same_triggers : Config :=
{| Token := ""; HelpCommand := ".help"; AbortCommand := ".help"; Intents := 0%Z |}.

Definition helps : sarah_CommandHelps :=
[ mkCommandHelp "echo" "Input .echo to echo back";
  mkCommandHelp "hello" "Input .hello to greet" ].

End Fixture.

(* ================================================================= *)
(** ** Observations on calls and on strings *)

Definition is_logger_call (c : call) : bool :=
match c with
| call_logger _ _ => true
| _ => false
end.


(** How often the byte [c] occurs in [s]. *)
Fixpoint count_byte (c : ascii) (s : string) : nat :=
match s with
| EmptyString => 0
| String c' s' => (if Ascii.eqb c c' then 1 else 0) + count_byte c s'
end.

Definition underscore : ascii := ascii_of_nat 95.

Definition line_feed : ascii := ascii_of_nat 10.

(* ================================================================= *)
(** * Proof steps used more than once *)

(** Unfolds one layer of the execution monad and computes. *)
Ltac run_calls := unfold bind, lift, ret, panic; cbn.

(** Closes a goal [In c cs -> _] where [c] differs from every element
    of the explicit list [cs] by its constructor or by an argument. *)
Ltac not_among_calls :=
  let Hin := fresh "Hin" in
  intro Hin;
  repeat (destruct Hin as [Hin | Hin]; [discriminate Hin | ]);
  destruct Hin.

(* ================================================================= *)
(** * Properties of the translation of inbound events *)

Lemma MessageToInput_with_author :
  forall (m : discordgo_MessageCreate) (msg : discordgo_Message) (author : discordgo_User),
    MessageCreate_Message m = Some msg ->
    Message_Author msg = Some author ->
    MessageToInput m =
      Returned (Ok {| Event := m;
                      senderKey := Message_ChannelID msg ++ "_" ++ User_ID author;
                      text := Message_Content msg;
                      sentAt := Message_Timestamp msg;
                      channelID := ChannelID_of (Message_ChannelID msg) |}).
Proof.
  intros m msg author Hmsg Hauthor.
  unfold MessageToInput, Sprintf_s_s.
  now rewrite Hmsg, Hauthor.
Qed.

Lemma MessageToInput_without_author :
  forall (m : discordgo_MessageCreate) (msg : discordgo_Message),
    MessageCreate_Message m = Some msg ->
    Message_Author msg = None ->
    MessageToInput m = Returned (Err ErrNoAuthor).
Proof.
  intros m msg Hmsg Hauthor.
  unfold MessageToInput.
  now rewrite Hmsg, Hauthor.
Qed.

(** C1. An event with an author translates, without error, to an Input
    whose sender key is the channel ID, an underscore and the author ID,
    whose text is the content as received, whose time is the event's,
    whose reply target is the event's channel as a [ChannelID], and which
    keeps the event. Two events with the same channel and author ID get
    the same sender key. *)
Theorem MessageToInput_translates :
  forall (m : discordgo_MessageCreate) (msg : discordgo_Message) (author : discordgo_User),
    MessageCreate_Message m = Some msg ->
    Message_Author msg = Some author ->
    exists input : Input,
      MessageToInput m = Returned (Ok input) /\
      SenderKey input = Message_ChannelID msg ++ "_" ++ User_ID author /\
      Message input = Message_Content msg /\
      SentAt input = Message_Timestamp msg /\
      ReplyTo input = any_ChannelID (ChannelID_of (Message_ChannelID msg)) /\
      Event input = m /\
      (forall (m' : discordgo_MessageCreate) (msg' : discordgo_Message)
              (author' : discordgo_User) (input' : Input),
          MessageCreate_Message m' = Some msg' ->
          Message_Author msg' = Some author' ->
          Message_ChannelID msg' = Message_ChannelID msg ->
          User_ID author' = User_ID author ->
          MessageToInput m' = Returned (Ok input') ->
          SenderKey input' = SenderKey input).
Proof.
  intros m msg author Hmsg Hauthor.
  eexists. split.
  - apply MessageToInput_with_author; eassumption.
  - cbn. repeat split.
    intros m' msg' author' input' Hmsg' Hauthor' Hch Hid Hin'.
    rewrite (MessageToInput_with_author m' msg' author' Hmsg' Hauthor') in Hin'.
    injection Hin' as <-. cbn. now rewrite Hch, Hid.
Qed.

Section InboundEvents.

Context {W : Type}.
Variable env : Env W.
Variable TrimSpace : string -> string.

Lemma from_own_account_without_identity :
  forall (s : discordgo_Session) (m : discordgo_MessageCreate),
    Session_State s = None \/
    (exists st, Session_State s = Some st /\ State_User st = None) ->
    from_own_account s m = Returned false.
Proof.
  intros s m [Hnone | (st & Hst & Huser)]; unfold from_own_account.
  - now rewrite Hnone.
  - now rewrite Hst, Huser.
Qed.

(** What handleMessage hands to the callback once an event got past both
    guards: one value, chosen by the two comparisons in their order. *)
Lemma handleMessage_enqueues :
  forall (a : Adapter) (s : discordgo_Session) (m : discordgo_MessageCreate)
         (input : Input) (w : W),
    MessageToInput m = Returned (Ok input) ->
    from_own_account s m = Returned false ->
    let help := HelpCommand (config a) in
    let abort := AbortCommand (config a) in
    let trimmed := TrimSpace (Message input) in
    let r := handleMessage TrimSpace a s m (enqueueInput env) w in
    ended r = Returned tt /\
    enqueued (calls r) =
      [ if negb (help =? "") && (trimmed =? help) then HelpInput_ptr (Input_ptr input)
        else if negb (abort =? "") && (trimmed =? abort) then AbortInput_ptr (Input_ptr input)
        else Input_ptr input ].
Proof.
  intros a s m input w Hin Hown. cbv zeta.
  unfold handleMessage. run_calls. rewrite Hin. cbn. rewrite Hown. cbn.
  destruct (negb (HelpCommand (config a) =? "")
            && (TrimSpace (Message input) =? HelpCommand (config a)));
    [ | destruct (negb (AbortCommand (config a) =? "")
                  && (TrimSpace (Message input) =? AbortCommand (config a))) ];
    unfold enqueueInput, sarah_NewHelpInput, sarah_NewAbortInput; cbn;
    match goal with
    | |- context [fst (enqueueInputFunc env ?i w)] =>
        destruct (fst (enqueueInputFunc env i w)); cbn; split; reflexivity
    end.
Qed.

(** The comparison [trigger != "" && trimmed == trigger]. *)
Lemma comparison_matches :
  forall trigger trimmed : string,
    trigger <> "" -> trimmed = trigger ->
    negb (trigger =? "") && (trimmed =? trigger) = true.
Proof.
  intros trigger trimmed Hne ->.
  apply String.eqb_neq in Hne. now rewrite Hne, String.eqb_refl.
Qed.

Lemma comparison_skipped :
  forall trigger trimmed : string,
    trigger = "" -> negb (trigger =? "") && (trimmed =? trigger) = false.
Proof. intros trigger trimmed ->. reflexivity. Qed.

Lemma comparison_differs :
  forall trigger trimmed : string,
    trimmed <> trigger -> negb (trigger =? "") && (trimmed =? trigger) = false.
Proof.
  intros trigger trimmed Hne.
  apply String.eqb_neq in Hne. rewrite Hne. apply andb_false_r.
Qed.

(** C2, as amended. For an event with an author that is not filtered as
    the bot's own: trimmed text equal to the non-empty help trigger is
    enqueued as a help sentinel around the Input; trimmed text equal to
    the non-empty abort trigger is enqueued as an abort sentinel around
    the Input when the help trigger is a different string; a comparison
    with an empty trigger is skipped, text equal to it being ordinary
    input; and text equal to neither trigger is enqueued as the plain
    Input, content untrimmed. In each case the callback is called once. *)
Theorem handleMessage_routes_by_trigger :
  forall (a : Adapter) (s : discordgo_Session) (m : discordgo_MessageCreate)
         (msg : discordgo_Message) (author : discordgo_User) (w : W),
    MessageCreate_Message m = Some msg ->
    Message_Author msg = Some author ->
    from_own_account s m = Returned false ->
    let help := HelpCommand (config a) in
    let abort := AbortCommand (config a) in
    let trimmed := TrimSpace (Message_Content msg) in
    let got := enqueued (calls (handleMessage TrimSpace a s m (enqueueInput env) w)) in
    exists input : Input,
      MessageToInput m = Returned (Ok input) /\
      SenderKey input = Message_ChannelID msg ++ "_" ++ User_ID author /\
      Message input = Message_Content msg /\
      (help <> "" -> trimmed = help -> got = [HelpInput_ptr (Input_ptr input)]) /\
      (abort <> "" -> trimmed = abort -> help <> abort ->
       got = [AbortInput_ptr (Input_ptr input)]) /\
      (help = "" -> trimmed = help -> got = [Input_ptr input]) /\
      (abort = "" -> trimmed = abort -> got = [Input_ptr input]) /\
      (trimmed <> help -> trimmed <> abort -> got = [Input_ptr input]).
Proof.
  intros a s m msg author w Hmsg Hauthor Hown. cbv zeta.
  pose proof (MessageToInput_with_author m msg author Hmsg Hauthor) as Hin.
  destruct (handleMessage_enqueues a s m _ w Hin Hown) as [_ Hgot].
  cbv zeta in Hgot. cbn [Message text] in Hgot. rewrite Hgot.
  eexists. split; [exact Hin | ]. cbn [SenderKey Message senderKey text].
  repeat split.
  - intros Hne Heq. now rewrite (comparison_matches _ _ Hne Heq).
  - intros Hne Heq Hdiff.
    rewrite comparison_differs by congruence.
    now rewrite (comparison_matches _ _ Hne Heq).
  - intros Hhelp Heq. rewrite (comparison_skipped _ _ Hhelp).
    destruct (string_dec (AbortCommand (config a)) "") as [Habort | Habort].
    + now rewrite (comparison_skipped _ _ Habort).
    + rewrite comparison_differs by congruence. reflexivity.
  - intros Habort Heq. rewrite (comparison_skipped _ _ Habort).
    destruct (string_dec (HelpCommand (config a)) "") as [Hhelp | Hhelp].
    + now rewrite (comparison_skipped _ _ Hhelp).
    + rewrite comparison_differs by congruence. reflexivity.
  - intros Hhelp Habort.
    now rewrite (comparison_differs _ _ Hhelp), (comparison_differs _ _ Habort).
Qed.

(** C10. With the help trigger and the abort trigger set to one and the
    same non-empty string, a handled message whose trimmed text is that
    string is enqueued as a help sentinel, and no abort sentinel is
    enqueued: the help comparison comes first. *)
Theorem handleMessage_help_before_abort :
  forall (a : Adapter) (s : discordgo_Session) (m : discordgo_MessageCreate)
         (msg : discordgo_Message) (author : discordgo_User) (w : W) (trigger : string),
    MessageCreate_Message m = Some msg ->
    Message_Author msg = Some author ->
    from_own_account s m = Returned false ->
    HelpCommand (config a) = trigger ->
    AbortCommand (config a) = trigger ->
    trigger <> "" ->
    TrimSpace (Message_Content msg) = trigger ->
    let got := enqueued (calls (handleMessage TrimSpace a s m (enqueueInput env) w)) in
    exists input : Input,
      MessageToInput m = Returned (Ok input) /\
      got = [HelpInput_ptr (Input_ptr input)] /\
      (forall original : sarah_Input, ~ In (AbortInput_ptr original) got).
Proof.
  intros a s m msg author w trigger Hmsg Hauthor Hown Hhelp Habort Hne Htrim. cbv zeta.
  pose proof (MessageToInput_with_author m msg author Hmsg Hauthor) as Hin.
  destruct (handleMessage_enqueues a s m _ w Hin Hown) as [_ Hgot].
  cbv zeta in Hgot. cbn [Message text] in Hgot.
  rewrite Hhelp, Htrim, (comparison_matches trigger trigger Hne eq_refl) in Hgot.
  rewrite Hgot. eexists. split; [exact Hin | ]. split; [reflexivity | ].
  intros original [Hhead | []]. discriminate Hhead.
Qed.

(** C4. MessageToInput returns an error exactly when the event's author
    is nil, and the error is then [ErrNoAuthor]; handleMessage, given
    such an event, logs and returns: whatever the enqueue callback is, it
    is not called, and nothing is enqueued. *)
Theorem MessageToInput_fails_only_without_author :
  forall (m : discordgo_MessageCreate),
    ((exists e : error, MessageToInput m = Returned (Err e)) <->
     (exists msg, MessageCreate_Message m = Some msg /\ Message_Author msg = None)) /\
    (forall e : error, MessageToInput m = Returned (Err e) -> e = ErrNoAuthor) /\
    (forall msg : discordgo_Message,
        MessageCreate_Message m = Some msg ->
        Message_Author msg = None ->
        forall (a : Adapter) (s : discordgo_Session)
               (callback : sarah_Input -> M W (option error)) (w : W),
          handleMessage TrimSpace a s m callback w =
            mkExec (Returned tt) [call_logger DEBUG "Skipping message: %+v"] w /\
          enqueued (calls (handleMessage TrimSpace a s m (enqueueInput env) w)) = []).
Proof.
  intro m. split; [ | split ].
  - unfold MessageToInput. split.
    + intros [e He]. destruct (MessageCreate_Message m) as [msg | ]; [ | discriminate He].
      exists msg. destruct (Message_Author msg); [discriminate He | now split].
    + intros (msg & Hmsg & Hauthor). exists ErrNoAuthor. now rewrite Hmsg, Hauthor.
  - unfold MessageToInput. intros e He.
    destruct (MessageCreate_Message m) as [msg | ]; [ | discriminate He].
    destruct (Message_Author msg); [discriminate He | ].
    now injection He as <-.
  - intros msg Hmsg Hauthor a s callback w.
    pose proof (MessageToInput_without_author m msg Hmsg Hauthor) as Hin.
    assert (Hlog : forall cb, handleMessage TrimSpace a s m cb w =
              mkExec (Returned tt) [call_logger DEBUG "Skipping message: %+v"] w).
    { intro cb. unfold handleMessage. run_calls. now rewrite Hin. }
    split; [apply Hlog | now rewrite Hlog].
Qed.

(** C5. An event whose author ID is the ID of the session's own user is
    dropped when the session has identity state (State and State.User
    both set): handleMessage makes no call at all. When the session has
    no identity state, the event is processed like any other and one
    value is enqueued for it. *)
Theorem handleMessage_skips_own_messages :
  forall (a : Adapter) (s : discordgo_Session) (m : discordgo_MessageCreate)
         (msg : discordgo_Message) (author : discordgo_User) (w : W),
    MessageCreate_Message m = Some msg ->
    Message_Author msg = Some author ->
    (forall (st : discordgo_State) (self : discordgo_User),
        Session_State s = Some st ->
        State_User st = Some self ->
        User_ID author = User_ID self ->
        (forall callback : sarah_Input -> M W (option error),
            handleMessage TrimSpace a s m callback w = mkExec (Returned tt) [] w) /\
        enqueued (calls (handleMessage TrimSpace a s m (enqueueInput env) w)) = []) /\
    (Session_State s = None \/
     (exists st, Session_State s = Some st /\ State_User st = None) ->
     let got := enqueued (calls (handleMessage TrimSpace a s m (enqueueInput env) w)) in
     exists input : Input,
       MessageToInput m = Returned (Ok input) /\
       (got = [HelpInput_ptr (Input_ptr input)] \/
        got = [AbortInput_ptr (Input_ptr input)] \/
        got = [Input_ptr input])).
Proof.
  intros a s m msg author w Hmsg Hauthor.
  pose proof (MessageToInput_with_author m msg author Hmsg Hauthor) as Hin.
  split.
  - intros st self Hst Hself Hid.
    assert (Hown : from_own_account s m = Returned true).
    { unfold from_own_account. rewrite Hst, Hself, Hmsg, Hauthor, Hid.
      now rewrite String.eqb_refl. }
    assert (Hdrop : forall cb, handleMessage TrimSpace a s m cb w = mkExec (Returned tt) [] w).
    { intro cb. unfold handleMessage. run_calls. rewrite Hin. cbn.
      now rewrite Hown. }
    split; [exact Hdrop | now rewrite Hdrop].
  - intros Hnoid. cbv zeta.
    pose proof (from_own_account_without_identity s m Hnoid) as Hown.
    destruct (handleMessage_enqueues a s m _ w Hin Hown) as [_ Hgot].
    cbv zeta in Hgot. rewrite Hgot.
    eexists. split; [exact Hin | ].
    destruct (negb _ && _); [now left | ].
    destruct (negb _ && _); [right; now left | right; now right].
Qed.

End InboundEvents.

(* ================================================================= *)
(** * Properties of sending and of running *)

Lemma help_lines_from :
  forall (content : sarah_CommandHelps) (lines : list string),
    fold_left (fun lines h => (lines ++ [help_line h])%list) content lines =
    (lines ++ map help_line content)%list.
Proof.
  induction content as [ | h content IH]; intro lines; cbn.
  - now rewrite app_nil_r.
  - rewrite IH, <- app_assoc. reflexivity.
Qed.

Lemma help_lines_map :
  forall content : sarah_CommandHelps, help_lines content = map help_line content.
Proof. intro content. unfold help_lines. now rewrite help_lines_from. Qed.

Section OutboundCalls.

Context {W : Type}.
Variable env : Env W.

(** C3. With a [ChannelID] as destination, string content makes one call
    on the session, the plain send, with the text as given; a
    [*discordgo.MessageSend] makes one call on the session, the complex
    send, with the payload as given; a list of N help entries makes one
    call on the session, the plain send, whose text is N lines
    [**identifier**: instruction] joined by line feeds; any other content
    makes no call on the session. With any other destination no call is
    made on the session. *)
Theorem SendMessage_dispatches_on_content :
  forall (a : Adapter) (output : sarah_Output) (w : W),
    let r := SendMessage env a output w in
    (forall (s : session) (destination : ChannelID),
        session_of a = Some s ->
        Destination output = any_ChannelID destination ->
        let channelID := string_of_ChannelID destination in
        (forall content : string,
            Content output = any_string content ->
            session_calls (calls r) =
              [call_ChannelMessageSend channelID content
                 (fst (channelMessageSendFunc env channelID content w))]) /\
        (forall data : option discordgo_MessageSend,
            Content output = any_MessageSend_ptr data ->
            session_calls (calls r) =
              [call_ChannelMessageSendComplex channelID data
                 (fst (channelMessageSendComplexFunc env channelID data w))]) /\
        (forall helps : sarah_CommandHelps,
            Content output = any_CommandHelps_ptr (Some helps) ->
            let lines :=
              map (fun h => "**" ++ Identifier h ++ "**: " ++ Instruction h) helps in
            let text := strings_Join lines LF in
            length lines = length helps /\
            session_calls (calls r) =
              [call_ChannelMessageSend channelID text
                 (fst (channelMessageSendFunc env channelID text w))]) /\
        ((forall content, Content output <> any_string content) ->
         (forall data, Content output <> any_MessageSend_ptr data) ->
         (forall helps, Content output <> any_CommandHelps_ptr helps) ->
         session_calls (calls r) = [])) /\
    ((forall destination, Destination output <> any_ChannelID destination) ->
     session_calls (calls r) = []).
Proof.
  intros a output w. cbv zeta. split.
  - intros s destination Hs Hdest.
    unfold SendMessage. rewrite Hdest, Hs.
    split; [ | split; [ | split ] ].
    + intros content ->. unfold bind. cbn.
      destruct (fst (channelMessageSendFunc env _ content w)); reflexivity.
    + intros data ->. unfold bind. cbn.
      destruct (fst (channelMessageSendComplexFunc env _ data w)); reflexivity.
    + intros helps ->. split; [apply length_map | ].
      rewrite help_lines_map. unfold bind, help_line. cbn.
      match goal with
      | |- context [fst (channelMessageSendFunc env ?c ?t w)] =>
          destruct (fst (channelMessageSendFunc env c t w)); reflexivity
      end.
    + intros Hstring Hsend Hhelps.
      destruct (Content output) as [ | content | n | c | data | helps | ty ];
        try reflexivity.
      * now elim (Hstring content).
      * now elim (Hsend data).
      * now elim (Hhelps helps).
  - intros Hdest. unfold SendMessage.
    destruct (Destination output) as [ | content | n | c | data | helps | ty ];
      try reflexivity.
    now elim (Hdest c).
Qed.

(** C7. A run in which the session's Open fails ends by returning, after
    exactly three calls: the handler's registration, the failed Open, and
    one call of the notify callback with a non-continuable error carrying
    Open's message. Open is not called again and Close is not called. *)
Theorem Run_reports_open_failure_once :
  forall (a : Adapter) (w : W) (err : error),
    let r := Run env a w in
    let reported :=
      sarah_BotNonContinuableError ("failed to open Discord session: " ++ Error err) in
    In (call_Open (Some err)) (calls r) ->
    ended r = Returned tt /\
    calls r = [call_AddHandler (messageCreateHandler a);
               call_Open (Some err);
               call_notifyErr reported] /\
    notified (calls r) = [reported] /\
    opens (calls r) = 1 /\
    closes (calls r) = 0.
Proof.
  intros a w err. cbv zeta. unfold Run.
  destruct (session_of a) as [s | ]; [ | intros []].
  unfold bind, session_AddHandler, session_Open, session_Close, ctx_Done, notifyErr.
  cbn.
  destruct (fst (openFunc env (addHandlerFunc env (messageCreateHandler a) w)))
    as [e | ]; cbn.
  - intros [Hc | [Hc | [Hc | []]]]; try discriminate Hc.
    injection Hc as ->. now repeat split.
  - destruct (ctxDone env _) as [w' | ]; cbn.
    + destruct (fst (closeFunc env w')); cbn; not_among_calls.
    + not_among_calls.
Qed.

End OutboundCalls.

(* ================================================================= *)
(** * Properties of construction and of responses *)

Lemma apply_AdapterOptions_last :
  forall (earlier : list AdapterOption) (opt : AdapterOption) (adapter : Adapter),
    apply_AdapterOptions (earlier ++ [opt]) adapter =
    opt (apply_AdapterOptions earlier adapter).
Proof.
  intros earlier opt adapter. unfold apply_AdapterOptions.
  now rewrite fold_left_app.
Qed.

Lemma apply_RespOptions_last :
  forall (earlier : list RespOption) (opt : RespOption) (stash : respOptions),
    apply_RespOptions (earlier ++ [opt]) stash =
    opt (apply_RespOptions earlier stash).
Proof.
  intros earlier opt stash. unfold apply_RespOptions.
  now rewrite fold_left_app.
Qed.

(** C6. NewAdapter fails with [ErrEmptyToken] exactly when the options
    left the session unset and the token is empty; with options made by
    [WithSession], that is when no option is given and the token is
    empty. With a session set by an option it succeeds and keeps that
    session, whatever the token; with no session set and a token, it asks
    [discordgo.New] for a session of ["Bot " ++ token], keeps it with the
    configured intents, and hands a failure on wrapped. *)
Theorem NewAdapter_requires_token_or_session :
  forall (New : string -> result discordgo_Session) (cfg : Config)
         (options : list AdapterOption),
    let injected :=
      session_of (apply_AdapterOptions options {| config := cfg; session_of := None |}) in
    (NewAdapter New cfg options = Err ErrEmptyToken <->
     injected = None /\ Token cfg = "") /\
    (Forall (fun opt => exists p, opt = WithSession p) options ->
     (NewAdapter New cfg options = Err ErrEmptyToken <->
      options = [] /\ Token cfg = "")) /\
    (forall s : session,
        injected = Some s ->
        exists a, NewAdapter New cfg options = Ok a /\ session_of a = Some s) /\
    (forall (p : option discordgo_Session) (earlier : list AdapterOption),
        options = (earlier ++ [WithSession p])%list ->
        exists a, NewAdapter New cfg options = Ok a /\
                  session_of a = Some (Session_ptr p)) /\
    (injected = None ->
     Token cfg <> "" ->
     match New ("Bot " ++ Token cfg) with
     | Ok s =>
         exists a,
           NewAdapter New cfg options = Ok a /\
           session_of a =
             Some (Session_ptr (Some {| Session_Token := Session_Token s;
                                        Session_Identify_Intents := Intents cfg;
                                        Session_State := Session_State s |}))
     | Err err =>
         NewAdapter New cfg options =
           Err (fmt_Errorf_w ("failed to create Discord session: " ++ Error err) err)
     end).
Proof.
  intros New cfg options. cbv zeta.
  assert (Hiff : forall opts,
            NewAdapter New cfg opts = Err ErrEmptyToken <->
            session_of (apply_AdapterOptions opts {| config := cfg; session_of := None |})
              = None /\ Token cfg = "").
  { intro opts. unfold NewAdapter.
    destruct (session_of (apply_AdapterOptions opts _)) as [s | ].
    - split; [discriminate | intros [Hnone _]; discriminate Hnone].
    - destruct (Token cfg =? "") eqn:Htoken.
      + apply String.eqb_eq in Htoken. now split.
      + apply String.eqb_neq in Htoken.
        destruct (New ("Bot " ++ Token cfg)); split;
          solve [discriminate | intros [_ Hempty]; contradiction]. }
  split; [apply Hiff | ]. split; [ | split; [ | split ] ].
  - intro Hwith. rewrite Hiff.
    destruct options as [ | opt options] using rev_ind; [cbn; tauto | ].
    apply Forall_app in Hwith. destruct Hwith as [_ Hlast].
    inversion_clear Hlast as [ | ? ? [p ->] _].
    rewrite apply_AdapterOptions_last. cbn.
    split; [intros [Hnone _]; discriminate Hnone | ].
    intros [Hnil _]. now destruct options.
  - intros s Hs. unfold NewAdapter. rewrite Hs. eexists. split; [reflexivity | exact Hs].
  - intros p earlier ->. unfold NewAdapter.
    rewrite apply_AdapterOptions_last. cbn. eexists. split; reflexivity.
  - intros Hnone Htoken. unfold NewAdapter. rewrite Hnone.
    apply String.eqb_neq in Htoken. rewrite Htoken.
    destruct (New ("Bot " ++ Token cfg)) as [s | err]; [ | reflexivity].
    eexists. split; reflexivity.
Qed.

(** C8. NewResponse fails exactly when the input's dynamic type is not
    this adapter's [*Input]: it fails for sarah's wrappers, a wrapped
    adapter Input included, and for the inputs of other adapters; for an
    [*Input] it succeeds, with the message as the response's content. *)
Theorem NewResponse_accepts_only_own_Input :
  forall (input : sarah_Input) (message : string) (options : list RespOption),
    ((exists e : error, NewResponse input message options = Err e) <->
     (forall i : Input, input <> Input_ptr i)) /\
    (forall i : Input,
        input = Input_ptr i ->
        exists r, NewResponse input message options = Ok r /\
                  CommandResponse_Content r = any_string message) /\
    (forall original : sarah_Input,
        input = HelpInput_ptr original \/ input = AbortInput_ptr original ->
        exists e : error, NewResponse input message options = Err e) /\
    (forall type_name key msg : string,
        input = Input_foreign type_name key msg ->
        NewResponse input message options =
          Err (fmt_Errorf (type_name ++ " is not a *discord.Input"))).
Proof.
  intros input message options. split; [ | split; [ | split ] ].
  - split.
    + intros [e He] i ->. discriminate He.
    + intro Hnot. destruct input as [ | i | o | o | ty key msg ];
        try (eexists; reflexivity).
      now elim (Hnot i).
  - intros i ->. eexists. split; reflexivity.
  - intros original [-> | ->]; eexists; reflexivity.
  - intros ty key msg ->. reflexivity.
Qed.

(** C9. When NewResponse is given both a [RespWithNext] and a
    [RespWithNextSerializable], the one applied last decides the user
    context alone: it has the field of the last option and the other
    field is nil, whatever options came earlier. *)
Theorem NewResponse_last_continuation_wins :
  forall (i : Input) (message : string) (earlier : list RespOption)
         (fnc : option sarah_ContextualFunc) (arg : option sarah_SerializableArgument),
    (exists r,
        NewResponse (Input_ptr i) message
          (earlier ++ [RespWithNext fnc; RespWithNextSerializable arg])%list = Ok r /\
        CommandResponse_UserContext r = Some {| Next := None; Serializable := arg |}) /\
    (exists r,
        NewResponse (Input_ptr i) message
          (earlier ++ [RespWithNextSerializable arg; RespWithNext fnc])%list = Ok r /\
        CommandResponse_UserContext r = Some {| Next := fnc; Serializable := None |}).
Proof.
  intros i message earlier fnc arg.
  split; eexists; (split; [reflexivity | ]); cbn;
    match goal with
    | |- context [(earlier ++ [?o1; ?o2])%list] =>
        change (earlier ++ [o1; o2])%list with (earlier ++ [o1] ++ [o2])%list
    end;
    rewrite app_assoc, apply_RespOptions_last; reflexivity.
Qed.


(* ================================================================= *)
(** * The test suite's cases, run on the model *)

Example TestNewConfig :
  Token NewConfig = "" /\ HelpCommand NewConfig = ".help" /\
  AbortCommand NewConfig = ".abort" /\ Intents NewConfig = 37376%Z.
Proof. repeat split. Qed.

Example TestAdapter_BotType : BotType (Fixture.adapter NewConfig) = "discord".
Proof. reflexivity. Qed.

Example help_command_with_whitespace_is_still_recognized :
  exists input,
    enqueued (calls (handleMessage Fixture.TrimSpace (Fixture.adapter NewConfig)
                       Fixture.sessionWithState
                       (Fixture.event "ch-1" "  .help  " (Some Fixture.user1))
                       (enqueueInput Fixture.quiet) tt))
      = [HelpInput_ptr (Input_ptr input)] /\
    Message input = "  .help  ".
Proof. eexists. split; reflexivity. Qed.

Example empty_help_command_disables_help_detection :
  exists input,
    enqueued (calls (handleMessage Fixture.TrimSpace
                       (Fixture.adapter (mkConfig "" "" ".abort" 0%Z))
                       Fixture.sessionWithState
                       (Fixture.event "ch-1" ".help" (Some Fixture.user1))
                       (enqueueInput Fixture.quiet) tt))
      = [Input_ptr input].
Proof. eexists. reflexivity. Qed.

Example enqueue_error_is_logged :
  exists input,
    calls (handleMessage Fixture.TrimSpace (Fixture.adapter NewConfig)
             Fixture.sessionWithState
             (Fixture.event "ch-1" "hello" (Some Fixture.user1))
             (enqueueInput (Fixture.mock None None None (Some (external_error "queue full"))))
             tt)
      = [call_enqueueInput (Input_ptr input) (Some (external_error "queue full"));
         call_logger ERROR "Failed to enqueue input: %+v"].
Proof. eexists. reflexivity. Qed.

Example context_canceled_calls_Close :
  calls (Run Fixture.quiet (Fixture.adapter NewConfig) tt)
    = [call_AddHandler (messageCreateHandler (Fixture.adapter NewConfig));
       call_Open None; call_ctx_Done; call_Close None].
Proof. reflexivity. Qed.

(** [WithSession(nil)] stores a nil pointer in a non-nil interface value:
    the session counts as set. *)
Example WithSession_nil_is_a_session :
  NewAdapter Fixture.New NewConfig [WithSession None]
    = Ok {| config := NewConfig; session_of := Some (Session_ptr None) |}.
Proof. reflexivity. Qed.

Example Run_without_session_panics :
  Run Fixture.quiet {| config := NewConfig; session_of := None |} tt
    = mkExec (Panicked nil_dereference) [] tt.
Proof. reflexivity. Qed.

Example nil_CommandHelps_panics :
  ended (SendMessage Fixture.quiet (Fixture.adapter NewConfig)
           (NewOutputMessage (any_ChannelID (ChannelID_of "ch-3")) (any_CommandHelps_ptr None))
           tt)
    = Panicked nil_dereference.
Proof. reflexivity. Qed.

Example event_without_message_panics :
  MessageToInput (mkMessageCreate None) = Panicked nil_dereference.
Proof. reflexivity. Qed.

(* ================================================================= *)
(** * The properties at the test suite's inputs *)

Lemma MessageToInput_translates_witness :
  exists input,
    MessageToInput (Fixture.event "channel-123" "hello world" (Some (mkUser "user-456" "testuser")))
      = Returned (Ok input) /\
    SenderKey input = "channel-123_user-456" /\
    Message input = "hello world" /\
    ReplyTo input = any_ChannelID (ChannelID_of "channel-123").
Proof.
  destruct (MessageToInput_translates
              (Fixture.event "channel-123" "hello world" (Some (mkUser "user-456" "testuser")))
              (Fixture.message "channel-123" "hello world" (Some (mkUser "user-456" "testuser")))
              (mkUser "user-456" "testuser") eq_refl eq_refl)
    as (input & Hin & Hkey & Htext & _ & Hreply & _).
  exists input. repeat split; assumption.
Defined.

Lemma handleMessage_routes_by_trigger_witness :
  from_own_account Fixture.sessionWithState
    (Fixture.event "ch-1" ".abort" (Some Fixture.user1)) = Returned false /\
  exists input,
    MessageToInput (Fixture.event "ch-1" ".abort" (Some Fixture.user1)) = Returned (Ok input) /\
    enqueued (calls (handleMessage Fixture.TrimSpace (Fixture.adapter NewConfig)
                       Fixture.sessionWithState
                       (Fixture.event "ch-1" ".abort" (Some Fixture.user1))
                       (enqueueInput Fixture.quiet) tt))
      = [AbortInput_ptr (Input_ptr input)].
Proof.
  split; [reflexivity | ].
  destruct (handleMessage_routes_by_trigger Fixture.quiet Fixture.TrimSpace
              (Fixture.adapter NewConfig) Fixture.sessionWithState
              (Fixture.event "ch-1" ".abort" (Some Fixture.user1))
              (Fixture.message "ch-1" ".abort" (Some Fixture.user1))
              Fixture.user1 tt eq_refl eq_refl eq_refl)
    as (input & Hin & _ & _ & _ & Habort & _).
  exists input. split; [exact Hin | ].
  apply Habort; [discriminate | reflexivity | discriminate].
Defined.

(** C2 as stated fails where the two triggers are the same string: the
    trimmed text equals the non-empty abort trigger, the event has an
    author and is not the bot's own, and what is enqueued is a help
    sentinel, not an abort sentinel. *)
Lemma abort_trigger_equal_to_help_trigger_yields_help :
  let a := Fixture.adapter Fixture.same_triggers in
  let m := Fixture.event "ch-1" ".help" (Some Fixture.user1) in
  let got :=
    enqueued (calls (handleMessage Fixture.TrimSpace a Fixture.sessionWithState m
                       (enqueueInput Fixture.quiet) tt)) in
  AbortCommand (config a) <> "" /\
  Fixture.TrimSpace ".help" = AbortCommand (config a) /\
  from_own_account Fixture.sessionWithState m = Returned false /\
  exists input,
    MessageToInput m = Returned (Ok input) /\
    got = [HelpInput_ptr (Input_ptr input)] /\
    got <> [AbortInput_ptr (Input_ptr input)].
Proof.
  cbv zeta. split; [discriminate | ]. split; [reflexivity | ]. split; [reflexivity | ].
  eexists. split; [reflexivity | ]. split; [reflexivity | discriminate].
Qed.

Lemma handleMessage_help_before_abort_witness :
  exists input,
    enqueued (calls (handleMessage Fixture.TrimSpace (Fixture.adapter Fixture.same_triggers)
                       Fixture.sessionWithState
                       (Fixture.event "ch-1" " .help " (Some Fixture.user1))
                       (enqueueInput Fixture.quiet) tt))
      = [HelpInput_ptr (Input_ptr input)].
Proof.
  destruct (handleMessage_help_before_abort Fixture.quiet Fixture.TrimSpace
              (Fixture.adapter Fixture.same_triggers) Fixture.sessionWithState
              (Fixture.event "ch-1" " .help " (Some Fixture.user1))
              (Fixture.message "ch-1" " .help " (Some Fixture.user1))
              Fixture.user1 tt ".help" eq_refl eq_refl eq_refl eq_refl eq_refl
              ltac:(discriminate) eq_refl)
    as (input & _ & Hgot & _).
  exists input. exact Hgot.
Defined.

Lemma MessageToInput_fails_only_without_author_witness :
  MessageToInput (Fixture.event "channel-123" "hello" None) = Returned (Err ErrNoAuthor) /\
  calls (handleMessage Fixture.TrimSpace (Fixture.adapter NewConfig) Fixture.sessionWithState
           (Fixture.event "ch-1" "hello" None) (enqueueInput Fixture.quiet) tt)
    = [call_logger DEBUG "Skipping message: %+v"].
Proof.
  split.
  - destruct (MessageToInput_fails_only_without_author Fixture.quiet Fixture.TrimSpace
                (Fixture.event "channel-123" "hello" None)) as (Hiff & Herr & _).
    destruct (proj2 Hiff (ex_intro _ (Fixture.message "channel-123" "hello" None)
                            (conj eq_refl eq_refl))) as [e He].
    rewrite He. now rewrite (Herr e He).
  - destruct (MessageToInput_fails_only_without_author Fixture.quiet Fixture.TrimSpace
                (Fixture.event "ch-1" "hello" None)) as (_ & _ & Hskip).
    destruct (Hskip (Fixture.message "ch-1" "hello" None) eq_refl eq_refl
                (Fixture.adapter NewConfig) Fixture.sessionWithState
                (enqueueInput Fixture.quiet) tt) as [Hrun _].
    now rewrite Hrun.
Defined.

Lemma handleMessage_skips_own_messages_witness :
  calls (handleMessage Fixture.TrimSpace (Fixture.adapter NewConfig) Fixture.sessionWithState
           (Fixture.event "ch-1" "hello from bot" (Some (mkUser Fixture.botUserID "")))
           (enqueueInput Fixture.quiet) tt) = [] /\
  length (enqueued
            (calls (handleMessage Fixture.TrimSpace (Fixture.adapter NewConfig)
                      Fixture.sessionNoState
                      (Fixture.event "ch-1" "hello from bot" (Some (mkUser Fixture.botUserID "")))
                      (enqueueInput Fixture.quiet) tt))) = 1.
Proof.
  split.
  - destruct (handleMessage_skips_own_messages Fixture.quiet Fixture.TrimSpace
                (Fixture.adapter NewConfig) Fixture.sessionWithState
                (Fixture.event "ch-1" "hello from bot" (Some (mkUser Fixture.botUserID "")))
                (Fixture.message "ch-1" "hello from bot" (Some (mkUser Fixture.botUserID "")))
                (mkUser Fixture.botUserID "") tt eq_refl eq_refl) as [Hdrop _].
    destruct (Hdrop _ _ eq_refl eq_refl eq_refl) as [Hrun _].
    now rewrite Hrun.
  - destruct (handleMessage_skips_own_messages Fixture.quiet Fixture.TrimSpace
                (Fixture.adapter NewConfig) Fixture.sessionNoState
                (Fixture.event "ch-1" "hello from bot" (Some (mkUser Fixture.botUserID "")))
                (Fixture.message "ch-1" "hello from bot" (Some (mkUser Fixture.botUserID "")))
                (mkUser Fixture.botUserID "") tt eq_refl eq_refl) as [_ Hkeep].
    destruct (Hkeep (or_introl eq_refl)) as (input & _ & [Hgot | [Hgot | Hgot]]);
      now rewrite Hgot.
Defined.

Lemma SendMessage_dispatches_on_content_witness :
  session_calls (calls (SendMessage Fixture.quiet (Fixture.adapter NewConfig)
                  (NewOutputMessage (any_ChannelID (ChannelID_of "ch-3"))
                                    (any_CommandHelps_ptr (Some Fixture.helps))) tt))
    = [call_ChannelMessageSend "ch-3"
         ("**echo**: Input .echo to echo back" ++ LF ++ "**hello**: Input .hello to greet")
         None] /\
  session_calls (calls (SendMessage Fixture.quiet (Fixture.adapter NewConfig)
                  (NewOutputMessage (any_string "not-a-channel-id") (any_string "hello")) tt))
    = [].
Proof.
  split.
  - destruct (SendMessage_dispatches_on_content Fixture.quiet (Fixture.adapter NewConfig)
                (NewOutputMessage (any_ChannelID (ChannelID_of "ch-3"))
                                  (any_CommandHelps_ptr (Some Fixture.helps))) tt)
      as [Hchannel _].
    destruct (Hchannel _ _ eq_refl eq_refl) as (_ & _ & Hhelps & _).
    destruct (Hhelps _ eq_refl) as [_ Hsend]. exact Hsend.
  - destruct (SendMessage_dispatches_on_content Fixture.quiet (Fixture.adapter NewConfig)
                (NewOutputMessage (any_string "not-a-channel-id") (any_string "hello")) tt)
      as [_ Hother].
    apply Hother. intros destination. discriminate.
Defined.

Lemma Run_reports_open_failure_once_witness :
  In (call_Open (Some Fixture.connection_refused))
     (calls (Run (Fixture.mock (Some Fixture.connection_refused) None None None)
                 (Fixture.adapter NewConfig) tt)) /\
  notified (calls (Run (Fixture.mock (Some Fixture.connection_refused) None None None)
                       (Fixture.adapter NewConfig) tt))
    = [sarah_BotNonContinuableError "failed to open Discord session: connection refused"] /\
  closes (calls (Run (Fixture.mock (Some Fixture.connection_refused) None None None)
                     (Fixture.adapter NewConfig) tt)) = 0.
Proof.
  assert (Hin : In (call_Open (Some Fixture.connection_refused))
                   (calls (Run (Fixture.mock (Some Fixture.connection_refused) None None None)
                               (Fixture.adapter NewConfig) tt)))
    by (right; left; reflexivity).
  split; [exact Hin | ].
  destruct (Run_reports_open_failure_once
              (Fixture.mock (Some Fixture.connection_refused) None None None)
              (Fixture.adapter NewConfig) tt Fixture.connection_refused Hin)
    as (_ & _ & Hnotified & _ & Hcloses).
  split; [exact Hnotified | exact Hcloses].
Defined.

Lemma NewAdapter_requires_token_or_session_witness :
  NewAdapter Fixture.New NewConfig [] = Err ErrEmptyToken /\
  (exists a, NewAdapter Fixture.New NewConfig [WithSession (Some Fixture.sessionNoState)] = Ok a /\
             session_of a = Some (Session_ptr (Some Fixture.sessionNoState))) /\
  NewAdapter Fixture.New_failing (mkConfig "test-token" ".help" ".abort" 0%Z) []
    = Err (fmt_Errorf_w "failed to create Discord session: no session"
                        (external_error "no session")).
Proof.
  split; [ | split ].
  - destruct (NewAdapter_requires_token_or_session Fixture.New NewConfig [])
      as (_ & Hnone & _).
    apply Hnone; [constructor | split; reflexivity].
  - destruct (NewAdapter_requires_token_or_session Fixture.New NewConfig
                [WithSession (Some Fixture.sessionNoState)])
      as (_ & _ & _ & Hlast & _).
    exact (Hlast (Some Fixture.sessionNoState) [] eq_refl).
  - destruct (NewAdapter_requires_token_or_session Fixture.New_failing
                (mkConfig "test-token" ".help" ".abort" 0%Z) [])
      as (_ & _ & _ & _ & Hcreate).
    apply Hcreate; [reflexivity | discriminate].
Defined.

Lemma NewResponse_accepts_only_own_Input_witness :
  (exists e,
      NewResponse (HelpInput_ptr (Input_ptr (mkInput (mkMessageCreate None) "ch_user" ".help"
                                               Fixture.now (ChannelID_of "ch"))))
                  "should fail" [] = Err e) /\
  (exists r,
      NewResponse (Input_ptr (mkInput (mkMessageCreate None) "ch_user" ".echo hello"
                                Fixture.now (ChannelID_of "ch")))
                  "hello" [] = Ok r /\
      CommandResponse_Content r = any_string "hello").
Proof.
  split.
  - destruct (NewResponse_accepts_only_own_Input
                (HelpInput_ptr (Input_ptr (mkInput (mkMessageCreate None) "ch_user" ".help"
                                             Fixture.now (ChannelID_of "ch"))))
                "should fail" []) as (_ & _ & Hwrapped & _).
    exact (Hwrapped _ (or_introl eq_refl)).
  - destruct (NewResponse_accepts_only_own_Input
                (Input_ptr (mkInput (mkMessageCreate None) "ch_user" ".echo hello"
                              Fixture.now (ChannelID_of "ch")))
                "hello" []) as (_ & Hown & _).
    exact (Hown _ eq_refl).
Defined.

Lemma NewResponse_last_continuation_wins_witness :
  exists r,
    NewResponse (Input_ptr (mkInput (mkMessageCreate None) "ch_user" ".start"
                              Fixture.now (ChannelID_of "ch")))
                "step 1"
                [RespWithNext (Some (mkContextualFunc 1));
                 RespWithNextSerializable
                   (Some (mkSerializableArgument "myFunc" (any_string "arg")))] = Ok r /\
    CommandResponse_UserContext r
      = Some {| Next := None;
                Serializable := Some (mkSerializableArgument "myFunc" (any_string "arg")) |}.
Proof.
  exact (proj1 (NewResponse_last_continuation_wins
                  (mkInput (mkMessageCreate None) "ch_user" ".start" Fixture.now
                           (ChannelID_of "ch"))
                  "step 1" []
                  (Some (mkContextualFunc 1))
                  (Some (mkSerializableArgument "myFunc" (any_string "arg"))))).
Defined.

(* ================================================================= *)
(** * Further properties: the life of a run *)

Section RunLifecycle.

Context {W : Type}.
Variable env : Env W.

(** X1. A run whose Open succeeds never calls the notify callback and
    calls Open once. Either the context is never done, and the run stays
    blocked after Open without calling Close; or it returns after waiting
    for the context and calling Close once, a failure of Close being
    logged and nothing more. *)
Theorem Run_closes_once_after_cancellation :
  forall (a : Adapter) (w : W),
    let r := Run env a w in
    In (call_Open None) (calls r) ->
    notified (calls r) = [] /\
    opens (calls r) = 1 /\
    ((ended r = Blocked /\
      calls r = [call_AddHandler (messageCreateHandler a); call_Open None] /\
      closes (calls r) = 0) \/
     (ended r = Returned tt /\
      closes (calls r) = 1 /\
      exists closeErr : option error,
        calls r =
          ([call_AddHandler (messageCreateHandler a); call_Open None;
            call_ctx_Done; call_Close closeErr] ++
           match closeErr with
           | Some _ => [call_logger ERROR "Failed to close Discord session: %+v"]
           | None => []
           end)%list)).
Proof.
  intros a w. cbv zeta. unfold Run.
  destruct (session_of a) as [s | ]; [ | intros []].
  unfold bind, session_AddHandler, session_Open, session_Close, ctx_Done, notifyErr.
  cbn.
  destruct (fst (openFunc env (addHandlerFunc env (messageCreateHandler a) w)))
    as [e | ]; cbn; [not_among_calls | intros _].
  destruct (ctxDone env _) as [w' | ]; cbn.
  - destruct (fst (closeFunc env w')) as [closeErr | ] eqn:Hclose; cbn;
      (split; [reflexivity | split; [reflexivity | right ] ]);
      (split; [reflexivity | split; [reflexivity | ] ]).
    + exists (Some closeErr). reflexivity.
    + exists None. reflexivity.
  - split; [reflexivity | split; [reflexivity | left ] ]. now repeat split.
Qed.


End RunLifecycle.

(* ================================================================= *)
(** * Further properties: what handling an event does and never does *)

Section HandlingEvents.

Context {W : Type}.
Variable env : Env W.
Variable TrimSpace : string -> string.

(** Once MessageToInput succeeded, the guard's selectors find what they
    select: the guard does not panic. *)
Lemma from_own_account_returns :
  forall (s : discordgo_Session) (m : discordgo_MessageCreate)
         (msg : discordgo_Message) (author : discordgo_User),
    MessageCreate_Message m = Some msg ->
    Message_Author msg = Some author ->
    exists own : bool, from_own_account s m = Returned own.
Proof.
  intros s m msg author Hmsg Hauthor. unfold from_own_account.
  destruct (Session_State s) as [st | ]; [ | now exists false].
  destruct (State_User st) as [self | ]; [ | now exists false].
  rewrite Hmsg, Hauthor. eexists. reflexivity.
Qed.

(** With a message in the event and the callback of the environment,
    handleMessage returns. *)
Lemma handleMessage_returns :
  forall (a : Adapter) (s : discordgo_Session) (m : discordgo_MessageCreate)
         (msg : discordgo_Message) (w : W),
    MessageCreate_Message m = Some msg ->
    ended (handleMessage TrimSpace a s m (enqueueInput env) w) = Returned tt.
Proof.
  intros a s m msg w Hmsg.
  destruct (Message_Author msg) as [author | ] eqn:Hauthor.
  - pose proof (MessageToInput_with_author m msg author Hmsg Hauthor) as Hin.
    destruct (from_own_account_returns s m msg author Hmsg Hauthor) as [[ | ] Hown].
    + unfold handleMessage. run_calls. rewrite Hin. cbn. now rewrite Hown.
    + now destruct (handleMessage_enqueues env TrimSpace a s m _ w Hin Hown).
  - unfold handleMessage. run_calls.
    now rewrite (MessageToInput_without_author m msg Hmsg Hauthor).
Qed.

(** X3. Given an event that carries a message, handleMessage returns; it
    calls no method of the session and never the notify callback; it
    calls the enqueue callback at most once, and not at all exactly when
    the author is nil or the guard finds the bot's own account. *)
Theorem handleMessage_enqueues_at_most_once :
  forall (a : Adapter) (s : discordgo_Session) (m : discordgo_MessageCreate)
         (msg : discordgo_Message) (w : W),
    MessageCreate_Message m = Some msg ->
    let r := handleMessage TrimSpace a s m (enqueueInput env) w in
    ended r = Returned tt /\
    session_calls (calls r) = [] /\
    notified (calls r) = [] /\
    length (enqueued (calls r)) <= 1 /\
    (enqueued (calls r) = [] <->
     Message_Author msg = None \/ from_own_account s m = Returned true).
Proof.
  intros a s m msg w Hmsg. cbv zeta.
  destruct (Message_Author msg) as [author | ] eqn:Hauthor.
  - pose proof (MessageToInput_with_author m msg author Hmsg Hauthor) as Hin.
    destruct (from_own_account_returns s m msg author Hmsg Hauthor) as [[ | ] Hown].
    + unfold handleMessage. run_calls. rewrite Hin. cbn. rewrite Hown. cbn.
      repeat split; auto.
    + unfold handleMessage. run_calls. rewrite Hin. cbn. rewrite Hown. cbn.
      destruct (negb _ && _); [ | destruct (negb _ && _) ];
        unfold enqueueInput; cbn;
        match goal with
        | |- context [fst (enqueueInputFunc env ?i w)] =>
            destruct (fst (enqueueInputFunc env i w)); cbn
        end;
        (repeat split; auto; try discriminate;
         intros [Hnil | Htrue]; discriminate).
  - pose proof (MessageToInput_without_author m msg Hmsg Hauthor) as Hin.
    unfold handleMessage. run_calls. rewrite Hin. cbn.
    repeat split; auto.
Qed.

(** X4. For an event that passes both guards the enqueue callback is
    called once, whatever it answers: when it answers an error, the
    error is logged and handleMessage returns all the same, leaving the
    environment as the callback left it. *)
Theorem handleMessage_logs_failed_enqueue :
  forall (a : Adapter) (s : discordgo_Session) (m : discordgo_MessageCreate)
         (msg : discordgo_Message) (author : discordgo_User) (w : W),
    MessageCreate_Message m = Some msg ->
    Message_Author msg = Some author ->
    from_own_account s m = Returned false ->
    let r := handleMessage TrimSpace a s m (enqueueInput env) w in
    exists value : sarah_Input,
      ended r = Returned tt /\
      world r = snd (enqueueInputFunc env value w) /\
      calls r =
        call_enqueueInput value (fst (enqueueInputFunc env value w)) ::
        match fst (enqueueInputFunc env value w) with
        | Some _ => [call_logger ERROR "Failed to enqueue input: %+v"]
        | None => []
        end.
Proof.
  intros a s m msg author w Hmsg Hauthor Hown. cbv zeta.
  pose proof (MessageToInput_with_author m msg author Hmsg Hauthor) as Hin.
  unfold handleMessage. run_calls. rewrite Hin. cbn. rewrite Hown. cbn.
  destruct (negb _ && _); [ | destruct (negb _ && _) ];
    unfold enqueueInput; cbn;
    match goal with
    | |- context [fst (enqueueInputFunc env ?i w)] =>
        exists i; destruct (fst (enqueueInputFunc env i w)); cbn; now repeat split
    end.
Qed.

(** X9. Of the values handleMessage enqueues, NewResponse takes the
    plain Input and refuses the help and abort sentinels: a response can
    be built from what was enqueued exactly when neither comparison
    matched. *)
Theorem NewResponse_on_enqueued_value :
  forall (a : Adapter) (s : discordgo_Session) (m : discordgo_MessageCreate)
         (msg : discordgo_Message) (author : discordgo_User) (w : W)
         (message : string) (options : list RespOption),
    MessageCreate_Message m = Some msg ->
    Message_Author msg = Some author ->
    from_own_account s m = Returned false ->
    let help := HelpCommand (config a) in
    let abort := AbortCommand (config a) in
    let trimmed := TrimSpace (Message_Content msg) in
    exists value : sarah_Input,
      enqueued (calls (handleMessage TrimSpace a s m (enqueueInput env) w)) = [value] /\
      ((exists response, NewResponse value message options = Ok response) <->
       ~ (help <> "" /\ trimmed = help) /\ ~ (abort <> "" /\ trimmed = abort)).
Proof.
  intros a s m msg author w message options Hmsg Hauthor Hown. cbv zeta.
  pose proof (MessageToInput_with_author m msg author Hmsg Hauthor) as Hin.
  destruct (handleMessage_enqueues env TrimSpace a s m _ w Hin Hown) as [_ Hgot].
  cbv zeta in Hgot. cbn [Message text] in Hgot. rewrite Hgot. clear Hgot.
  eexists. split; [reflexivity | ].
  destruct (string_dec (HelpCommand (config a)) "") as [Hh | Hh];
    destruct (string_dec (TrimSpace (Message_Content msg)) (HelpCommand (config a)))
      as [Hth | Hth];
    destruct (string_dec (AbortCommand (config a)) "") as [Ha | Ha];
    destruct (string_dec (TrimSpace (Message_Content msg)) (AbortCommand (config a)))
      as [Hta | Hta];
    repeat first
      [ rewrite (comparison_matches _ _ Hh Hth)
      | rewrite (comparison_matches _ _ Ha Hta)
      | rewrite (comparison_skipped _ _ Hh)
      | rewrite (comparison_skipped _ _ Ha)
      | rewrite (comparison_differs _ _ Hth)
      | rewrite (comparison_differs _ _ Hta) ];
    cbn;
    (split;
     [ intros [response Hok];
       first [ discriminate Hok | split; intros [? ?]; contradiction ]
     | intros [Hnh Hna];
       first [ eexists; reflexivity
             | elim Hnh; now split
             | elim Hna; now split ] ]).
Qed.

End HandlingEvents.

(* ================================================================= *)
(** * Further properties: sending *)

Lemma count_byte_append :
  forall (c : ascii) (s t : string),
    count_byte c (s ++ t) = count_byte c s + count_byte c t.
Proof.
  intros c s t. induction s as [ | c' s IH]; cbn; [reflexivity | ].
  rewrite IH. now rewrite Nat.add_assoc.
Qed.

(** Joining with line feeds adds one line feed between neighbours. *)
Lemma count_line_feeds_of_Join :
  forall lines : list string,
    Forall (fun l => count_byte line_feed l = 0) lines ->
    count_byte line_feed (strings_Join lines LF) = pred (length lines).
Proof.
  unfold strings_Join.
  induction lines as [ | l lines IH]; intro Hfree; [reflexivity | ].
  inversion_clear Hfree as [ | ? ? Hl Hlines].
  destruct lines as [ | l' lines]; [exact Hl | ].
  change (String.concat LF (l :: l' :: lines))
    with (l ++ LF ++ String.concat LF (l' :: lines)).
  rewrite !count_byte_append, Hl, (IH Hlines). reflexivity.
Qed.

Section Sending.

Context {W : Type}.
Variable env : Env W.



(** X8. A reply finds its way back: string content sent to the
    destination that [ReplyTo] gives for a translated event makes one
    call on the session, the plain send, to the channel the event came
    from. *)
Theorem reply_reaches_channel_of_event :
  forall (a : Adapter) (s : session) (m : discordgo_MessageCreate)
         (msg : discordgo_Message) (author : discordgo_User) (content : string) (w : W),
    session_of a = Some s ->
    MessageCreate_Message m = Some msg ->
    Message_Author msg = Some author ->
    exists input : Input,
      MessageToInput m = Returned (Ok input) /\
      session_calls
        (calls (SendMessage env a (NewOutputMessage (ReplyTo input) (any_string content)) w))
      = [call_ChannelMessageSend (Message_ChannelID msg) content
           (fst (channelMessageSendFunc env (Message_ChannelID msg) content w))].
Proof.
  intros a s m msg author content w Hs Hmsg Hauthor.
  eexists. split; [exact (MessageToInput_with_author m msg author Hmsg Hauthor) | ].
  unfold SendMessage, ReplyTo. cbn. rewrite Hs. unfold bind. cbn.
  destruct (fst (channelMessageSendFunc env _ content w)); reflexivity.
Qed.

(** X13. Help entries whose identifier and instruction hold no line feed
    are sent as a text with one line per entry: the text of N entries
    has N-1 line feeds. With no entry at all the plain send is still
    called, with the empty text. *)
Theorem help_text_has_one_line_per_entry :
  forall (a : Adapter) (s : session) (destination : ChannelID)
         (helps : sarah_CommandHelps) (w : W),
    session_of a = Some s ->
    Forall (fun h => count_byte line_feed (Identifier h) = 0 /\
                     count_byte line_feed (Instruction h) = 0) helps ->
    exists (content : string) (err : option error),
      session_calls
        (calls (SendMessage env a
                  (NewOutputMessage (any_ChannelID destination)
                                    (any_CommandHelps_ptr (Some helps))) w))
      = [call_ChannelMessageSend (string_of_ChannelID destination) content err] /\
      count_byte line_feed content = pred (length helps) /\
      (helps = [] -> content = "").
Proof.
  intros a s destination helps w Hs Hfree.
  unfold SendMessage. cbn. rewrite Hs. unfold bind. cbn.
  match goal with
  | |- context [fst (channelMessageSendFunc env ?c ?t w)] =>
      exists t, (fst (channelMessageSendFunc env c t w))
  end.
  split; [destruct (fst _); reflexivity | ].
  rewrite help_lines_map. split.
  - rewrite count_line_feeds_of_Join; [now rewrite length_map | ].
    apply Forall_map. revert Hfree. apply Forall_impl.
    intros h [Hid Hin]. unfold help_line.
    rewrite !count_byte_append, Hid, Hin. reflexivity.
  - now intros ->.
Qed.

End Sending.

(* ================================================================= *)
(** * Further properties: keys, options and responses *)

(** Where the first underscore of a key stands, the channel ID ends. *)
Lemma key_splits_at_first_underscore :
  forall a a' b b' : string,
    count_byte underscore a = 0 ->
    count_byte underscore a' = 0 ->
    a ++ "_" ++ b = a' ++ "_" ++ b' ->
    a = a' /\ b = b'.
Proof.
  unfold underscore.
  induction a as [ | c a IH]; intros [ | c' a'] b b' Ha Ha' Hkey; cbn in Hkey.
  - injection Hkey as ->. now split.
  - injection Hkey as <- _. cbn in Ha'. discriminate Ha'.
  - injection Hkey as -> _. cbn in Ha. discriminate Ha.
  - injection Hkey as <- Hrest. cbn [count_byte] in Ha, Ha'.
    destruct (Ascii.eqb _ c); [discriminate Ha | ].
    destruct (IH a' b b' Ha Ha' Hrest) as [-> ->]. now split.
Qed.

(** X7. For events whose channel IDs hold no underscore (Discord's IDs
    are digits), two translated events have the same sender key exactly
    when they have the same channel ID and the same author ID. Without
    that condition the key does not tell senders apart: channel [a_b]
    with author [c] and channel [a] with author [b_c] share a key. *)
Theorem SenderKey_identifies_channel_and_author :
  (forall (m1 m2 : discordgo_MessageCreate) (msg1 msg2 : discordgo_Message)
          (author1 author2 : discordgo_User) (input1 input2 : Input),
      MessageCreate_Message m1 = Some msg1 ->
      Message_Author msg1 = Some author1 ->
      MessageCreate_Message m2 = Some msg2 ->
      Message_Author msg2 = Some author2 ->
      count_byte underscore (Message_ChannelID msg1) = 0 ->
      count_byte underscore (Message_ChannelID msg2) = 0 ->
      MessageToInput m1 = Returned (Ok input1) ->
      MessageToInput m2 = Returned (Ok input2) ->
      (SenderKey input1 = SenderKey input2 <->
       Message_ChannelID msg1 = Message_ChannelID msg2 /\
       User_ID author1 = User_ID author2)) /\
  (exists input1 input2 : Input,
      MessageToInput (Fixture.event "a_b" "" (Some (mkUser "c" ""))) = Returned (Ok input1) /\
      MessageToInput (Fixture.event "a" "" (Some (mkUser "b_c" ""))) = Returned (Ok input2) /\
      SenderKey input1 = SenderKey input2 /\
      ReplyTo input1 <> ReplyTo input2).
Proof.
  split.
  - intros m1 m2 msg1 msg2 author1 author2 input1 input2
           Hmsg1 Hauthor1 Hmsg2 Hauthor2 Hfree1 Hfree2 Hin1 Hin2.
    rewrite (MessageToInput_with_author m1 msg1 author1 Hmsg1 Hauthor1) in Hin1.
    rewrite (MessageToInput_with_author m2 msg2 author2 Hmsg2 Hauthor2) in Hin2.
    injection Hin1 as <-. injection Hin2 as <-. cbn. split.
    + now apply key_splits_at_first_underscore.
    + now intros [-> ->].
  - eexists. eexists. split; [reflexivity | ]. split; [reflexivity | ].
    split; [reflexivity | discriminate].
Qed.

(** X10. Whatever options of the package's two constructors NewResponse
    is given, the response carries the message; its user context is nil
    exactly when no option was given; and a user context never has both
    a continuation function and a serializable argument. *)
Theorem NewResponse_sets_at_most_one_continuation :
  forall (i : Input) (message : string) (options : list RespOption),
    Forall (fun opt => (exists fnc, opt = RespWithNext fnc) \/
                       (exists arg, opt = RespWithNextSerializable arg)) options ->
    exists response : sarah_CommandResponse,
      NewResponse (Input_ptr i) message options = Ok response /\
      CommandResponse_Content response = any_string message /\
      (CommandResponse_UserContext response = None <-> options = []) /\
      (forall uc : sarah_UserContext,
          CommandResponse_UserContext response = Some uc ->
          Next uc = None \/ Serializable uc = None).
Proof.
  intros i message options Hbuilt.
  eexists. split; [reflexivity | ]. split; [reflexivity | ]. cbn.
  destruct options as [ | opt options] using rev_ind.
  - cbn. split; [now split | discriminate].
  - apply Forall_app in Hbuilt. destruct Hbuilt as [_ Hlast].
    inversion_clear Hlast as [ | ? ? Hopt _].
    rewrite apply_RespOptions_last.
    destruct Hopt as [[fnc ->] | [arg ->]]; cbn;
      (split;
       [ split; [discriminate | intro Hnil; now destruct options]
       | intros uc [= <-]; cbn; auto ]).
Qed.

Lemma WithSession_keeps_config :
  forall (sessions : list (option discordgo_Session)) (adapter : Adapter),
    config (apply_AdapterOptions (map WithSession sessions) adapter) = config adapter.
Proof.
  unfold apply_AdapterOptions.
  induction sessions as [ | p sessions IH]; intro adapter; cbn; [reflexivity | ].
  now rewrite IH.
Qed.

(** X11. Given several [WithSession] options, NewAdapter keeps the
    session of the last one and the configuration it was given; the
    token and [discordgo.New] play no part. *)
Theorem NewAdapter_keeps_last_session :
  forall (New : string -> result discordgo_Session) (cfg : Config)
         (earlier : list (option discordgo_Session)) (p : option discordgo_Session),
    NewAdapter New cfg (map WithSession (earlier ++ [p])) =
    Ok {| config := cfg; session_of := Some (Session_ptr p) |}.
Proof.
  intros New cfg earlier p. unfold NewAdapter.
  rewrite map_app. cbn [map]. rewrite apply_AdapterOptions_last.
  pose proof (WithSession_keeps_config earlier {| config := cfg; session_of := None |})
    as Hconfig.
  destruct (apply_AdapterOptions (map WithSession earlier) _) as [kept s].
  cbn in Hconfig |- *. now rewrite Hconfig.
Qed.

Section EventsWithoutMessage.

Context {W : Type}.
Variable env : Env W.
Variable TrimSpace : string -> string.

(** X12. MessageToInput panics exactly when the event's embedded message
    pointer is nil, and so does handleMessage with a callback that
    returns; it then panics before any call is made, whatever the
    callback. *)
Theorem handleMessage_panics_without_message :
  forall (a : Adapter) (s : discordgo_Session) (m : discordgo_MessageCreate) (w : W),
    ((exists reason, MessageToInput m = Panicked reason) <->
     MessageCreate_Message m = None) /\
    ((exists reason,
         ended (handleMessage TrimSpace a s m (enqueueInput env) w) = Panicked reason) <->
     MessageCreate_Message m = None) /\
    (MessageCreate_Message m = None ->
     forall callback : sarah_Input -> M W (option error),
       handleMessage TrimSpace a s m callback w = mkExec (Panicked nil_dereference) [] w).
Proof.
  intros a s m w.
  assert (Hnone : MessageCreate_Message m = None ->
            forall callback : sarah_Input -> M W (option error),
              handleMessage TrimSpace a s m callback w
                = mkExec (Panicked nil_dereference) [] w).
  { intros Hm callback. unfold handleMessage, MessageToInput. rewrite Hm. reflexivity. }
  split; [ | split; [ | exact Hnone ] ].
  - unfold MessageToInput.
    destruct (MessageCreate_Message m) as [msg | ].
    + split; [ | discriminate].
      intros [reason Hr]. destruct (Message_Author msg); discriminate Hr.
    + split; [reflexivity | intros _; now exists nil_dereference].
  - split.
    + intros [reason Hr].
      destruct (MessageCreate_Message m) as [msg | ] eqn:Hmsg; [ | reflexivity].
      rewrite (handleMessage_returns env TrimSpace a s m msg w Hmsg) in Hr.
      discriminate Hr.
    + intro Hm. rewrite (Hnone Hm). now exists nil_dereference.
Qed.

End EventsWithoutMessage.

(* ================================================================= *)
(** * The further properties at the test suite's inputs *)

Lemma Run_closes_once_after_cancellation_witness :
  In (call_Open None) (calls (Run Fixture.quiet (Fixture.adapter NewConfig) tt)) /\
  notified (calls (Run Fixture.quiet (Fixture.adapter NewConfig) tt)) = [] /\
  opens (calls (Run Fixture.quiet (Fixture.adapter NewConfig) tt)) = 1.
Proof.
  assert (Hin : In (call_Open None)
                   (calls (Run Fixture.quiet (Fixture.adapter NewConfig) tt)))
    by (right; left; reflexivity).
  split; [exact Hin | ].
  destruct (Run_closes_once_after_cancellation Fixture.quiet (Fixture.adapter NewConfig)
              tt Hin) as (Hnotified & Hopens & _).
  split; [exact Hnotified | exact Hopens].
Defined.


Lemma handleMessage_enqueues_at_most_once_witness :
  ended (handleMessage Fixture.TrimSpace (Fixture.adapter NewConfig) Fixture.sessionWithState
           (Fixture.event "ch-1" "hello" (Some Fixture.user1))
           (enqueueInput Fixture.quiet) tt) = Returned tt /\
  session_calls
    (calls (handleMessage Fixture.TrimSpace (Fixture.adapter NewConfig)
              Fixture.sessionWithState
              (Fixture.event "ch-1" "hello" (Some Fixture.user1))
              (enqueueInput Fixture.quiet) tt)) = [].
Proof.
  destruct (handleMessage_enqueues_at_most_once Fixture.quiet Fixture.TrimSpace
              (Fixture.adapter NewConfig) Fixture.sessionWithState
              (Fixture.event "ch-1" "hello" (Some Fixture.user1))
              (Fixture.message "ch-1" "hello" (Some Fixture.user1)) tt eq_refl)
    as (Hended & Hsession & _).
  split; [exact Hended | exact Hsession].
Defined.

Lemma handleMessage_logs_failed_enqueue_witness :
  exists value : sarah_Input,
    calls (handleMessage Fixture.TrimSpace (Fixture.adapter NewConfig)
             Fixture.sessionWithState
             (Fixture.event "ch-1" "hello" (Some Fixture.user1))
             (enqueueInput (Fixture.mock None None None (Some (external_error "queue full"))))
             tt)
    = [call_enqueueInput value (Some (external_error "queue full"));
       call_logger ERROR "Failed to enqueue input: %+v"].
Proof.
  destruct (handleMessage_logs_failed_enqueue
              (Fixture.mock None None None (Some (external_error "queue full")))
              Fixture.TrimSpace (Fixture.adapter NewConfig) Fixture.sessionWithState
              (Fixture.event "ch-1" "hello" (Some Fixture.user1))
              (Fixture.message "ch-1" "hello" (Some Fixture.user1))
              Fixture.user1 tt eq_refl eq_refl eq_refl)
    as (value & _ & _ & Hcalls).
  exists value. exact Hcalls.
Defined.

Lemma NewResponse_on_enqueued_value_witness :
  exists (value : sarah_Input) (response : sarah_CommandResponse),
    enqueued (calls (handleMessage Fixture.TrimSpace (Fixture.adapter NewConfig)
                       Fixture.sessionWithState
                       (Fixture.event "ch-1" ".hello" (Some Fixture.user1))
                       (enqueueInput Fixture.quiet) tt)) = [value] /\
    NewResponse value "Hello, World!" [] = Ok response.
Proof.
  destruct (NewResponse_on_enqueued_value Fixture.quiet Fixture.TrimSpace
              (Fixture.adapter NewConfig) Fixture.sessionWithState
              (Fixture.event "ch-1" ".hello" (Some Fixture.user1))
              (Fixture.message "ch-1" ".hello" (Some Fixture.user1))
              Fixture.user1 tt "Hello, World!" [] eq_refl eq_refl eq_refl)
    as (value & Hgot & Hiff).
  destruct (proj2 Hiff) as [response Hok].
  - split; intros [_ Heq]; discriminate Heq.
  - exists value, response. split; [exact Hgot | exact Hok].
Defined.



Lemma reply_reaches_channel_of_event_witness :
  exists input : Input,
    MessageToInput (Fixture.event "channel-123" "hello world" (Some Fixture.user1))
      = Returned (Ok input) /\
    session_calls
      (calls (SendMessage Fixture.quiet (Fixture.adapter NewConfig)
                (NewOutputMessage (ReplyTo input) (any_string "hi")) tt))
    = [call_ChannelMessageSend "channel-123" "hi" None].
Proof.
  exact (reply_reaches_channel_of_event Fixture.quiet (Fixture.adapter NewConfig)
           (session_impl "mockSession")
           (Fixture.event "channel-123" "hello world" (Some Fixture.user1))
           (Fixture.message "channel-123" "hello world" (Some Fixture.user1))
           Fixture.user1 "hi" tt eq_refl eq_refl eq_refl).
Defined.

Lemma help_text_has_one_line_per_entry_witness :
  exists (content : string) (err : option error),
    session_calls
      (calls (SendMessage Fixture.quiet (Fixture.adapter NewConfig)
                (NewOutputMessage (any_ChannelID (ChannelID_of "ch-3"))
                                  (any_CommandHelps_ptr (Some Fixture.helps))) tt))
    = [call_ChannelMessageSend "ch-3" content err] /\
    count_byte line_feed content = 1.
Proof.
  destruct (help_text_has_one_line_per_entry Fixture.quiet (Fixture.adapter NewConfig)
              (session_impl "mockSession") (ChannelID_of "ch-3") Fixture.helps tt eq_refl)
    as (content & err & Hcalls & Hcount & _).
  - repeat constructor.
  - exists content, err. split; [exact Hcalls | exact Hcount].
Defined.

Lemma SenderKey_identifies_channel_and_author_witness :
  SenderKey (mkInput (Fixture.event "ch-1" "hello" (Some Fixture.user1))
               "ch-1_user-1" "hello" Fixture.now (ChannelID_of "ch-1"))
  = SenderKey (mkInput (Fixture.event "ch-2" "hello" (Some Fixture.user1))
                 "ch-2_user-1" "hello" Fixture.now (ChannelID_of "ch-2"))
  <-> "ch-1" = "ch-2" /\ "user-1" = "user-1".
Proof.
  exact (proj1 SenderKey_identifies_channel_and_author
           (Fixture.event "ch-1" "hello" (Some Fixture.user1))
           (Fixture.event "ch-2" "hello" (Some Fixture.user1))
           (Fixture.message "ch-1" "hello" (Some Fixture.user1))
           (Fixture.message "ch-2" "hello" (Some Fixture.user1))
           Fixture.user1 Fixture.user1 _ _
           eq_refl eq_refl eq_refl eq_refl eq_refl eq_refl eq_refl eq_refl).
Defined.

Lemma NewResponse_sets_at_most_one_continuation_witness :
  exists response : sarah_CommandResponse,
    NewResponse (Input_ptr (mkInput (mkMessageCreate None) "ch_user" ".start"
                              Fixture.now (ChannelID_of "ch")))
                "step 1" [RespWithNext (Some (mkContextualFunc 1))] = Ok response /\
    CommandResponse_Content response = any_string "step 1" /\
    CommandResponse_UserContext response <> None.
Proof.
  destruct (NewResponse_sets_at_most_one_continuation
              (mkInput (mkMessageCreate None) "ch_user" ".start" Fixture.now
                       (ChannelID_of "ch"))
              "step 1" [RespWithNext (Some (mkContextualFunc 1))])
    as (response & Hok & Hcontent & Hnil & _).
  - constructor; [left; now exists (Some (mkContextualFunc 1)) | constructor].
  - exists response. split; [exact Hok | ]. split; [exact Hcontent | ].
    intro Hnone. apply Hnil in Hnone. discriminate Hnone.
Defined.
